(** * LearnDer back end: the question-answering service

    A shallow embedding of [QAService] (services/qaService.ts) and of
    [GroqService.generateResponse] (services/groq.ts), with the properties
    the specification states about them.

    - JavaScript strings are sequences of UTF-16 code units ([jsstring]);
      [length], [substring] and [+] act on code units, as in the language.
    - JavaScript numbers are IEEE-754 binary64 values, taken from the
      Standard Library's executable specification [SpecFloat]
      (round-to-nearest-even [SFadd], [SFmul], [SFdiv]).
    - [async] methods run in a state-and-exception monad over a [World]
      holding the two tables of the record store and the console; the
      replies of the collaborators (retrieval, record store, completion
      end point) are oracles of the world state. *)

From Stdlib Require Import ZArith NArith List String Ascii Decimal.
From Stdlib Require Import SpecFloat.
From stdpp Require Import base list sorting.

Set Default Proof Using "Type".

(* ===================================================================== *)
(** ** JavaScript strings *)
(* ===================================================================== *)

Module JsString.

(** A UTF-16 code unit, [0 .. 0xFFFF]. *)
Definition code_unit := N.
Definition jsstring := list code_unit.

(** Source files are UTF-8.  A string literal of the source denotes the
    UTF-16 encoding of the code points it spells. *)
Definition cont (b : N) : N := N.land b 0x3F.

Definition utf16_of_code_point (cp : N) : jsstring :=
  if (cp <? 0x10000)%N then [cp]
  else let v := (cp - 0x10000)%N in
       [(0xD800 + N.shiftr v 10)%N; (0xDC00 + N.land v 0x3FF)%N].

Fixpoint utf16_of_utf8 (bs : list N) : jsstring :=
  match bs with
  | [] => []
  | b0 :: r0 =>
      if (b0 <? 0x80)%N then b0 :: utf16_of_utf8 r0
      else if (b0 <? 0xE0)%N then
        match r0 with
        | b1 :: r1 =>
            (N.shiftl (N.land b0 0x1F) 6 + cont b1)%N :: utf16_of_utf8 r1
        | _ => []
        end
      else if (b0 <? 0xF0)%N then
        match r0 with
        | b1 :: b2 :: r2 =>
            (N.shiftl (N.land b0 0x0F) 12 + N.shiftl (cont b1) 6 + cont b2)%N
              :: utf16_of_utf8 r2
        | _ => []
        end
      else
        match r0 with
        | b1 :: b2 :: b3 :: r3 =>
            utf16_of_code_point
              (N.shiftl (N.land b0 0x07) 18 + N.shiftl (cont b1) 12
               + N.shiftl (cont b2) 6 + cont b3)%N
              ++ utf16_of_utf8 r3
        | _ => []
        end
  end.

(** [lit "..."] is the value of the source literal ['...']. *)
Definition lit (s : string) : jsstring :=
  utf16_of_utf8 (map N_of_ascii (list_ascii_of_string s)).

(** [s.substring(0, n)] for a non-negative integer [n]. *)
Definition substring0 (n : nat) (s : jsstring) : jsstring := take n s.

(** [arr.join(sep)] on an array of strings. *)
Fixpoint join (sep : jsstring) (parts : list jsstring) : jsstring :=
  match parts with
  | [] => []
  | [p] => p
  | p :: rest => p ++ sep ++ join sep rest
  end.

(** [String(n)] for an integer [n >= 0] below [10^21]: its decimal
    digits, no sign, no leading zero. *)
Fixpoint digits (d : Decimal.uint) : jsstring :=
  match d with
  | Nil => []
  | D0 d => 48%N :: digits d
  | D1 d => 49%N :: digits d
  | D2 d => 50%N :: digits d
  | D3 d => 51%N :: digits d
  | D4 d => 52%N :: digits d
  | D5 d => 53%N :: digits d
  | D6 d => 54%N :: digits d
  | D7 d => 55%N :: digits d
  | D8 d => 56%N :: digits d
  | D9 d => 57%N :: digits d
  end.

Definition of_N (n : N) : jsstring := digits (N.to_uint n).

(** WhiteSpace and LineTerminator code units, the ones [trim] strips. *)
Definition is_white (c : code_unit) : bool :=
  ((9 <=? c) && (c <=? 13) || (c =? 0x20) || (c =? 0xA0) || (c =? 0x1680)
   || (0x2000 <=? c) && (c <=? 0x200A) || (c =? 0x2028) || (c =? 0x2029)
   || (c =? 0x202F) || (c =? 0x205F) || (c =? 0x3000) || (c =? 0xFEFF))%N.

Fixpoint trimStart (s : jsstring) : jsstring :=
  match s with
  | c :: r => if is_white c then trimStart r else s
  | [] => []
  end.

Definition trim (s : jsstring) : jsstring :=
  rev (trimStart (rev (trimStart s))).

(** The empty string is the only falsy string. *)
Definition truthy (s : jsstring) : bool :=
  match s with [] => false | _ => true end.

End JsString.

Export JsString.

(* ===================================================================== *)
(** ** JavaScript numbers *)
(* ===================================================================== *)

Module Number.

Definition prec : Z := 53.
Definition emax : Z := 1024.

(** A binary64 value: signed zero, infinity, NaN, or [(-1)^s * m * 2^e]. *)
Definition number := spec_float.

Definition add : number -> number -> number := SFadd prec emax.
Definition mul : number -> number -> number := SFmul prec emax.
Definition div : number -> number -> number := SFdiv prec emax.

(** The number an integer literal denotes (exact up to [2^53]). *)
Definition of_Z (k : Z) : number := binary_normalize prec emax k 0 false.
Definition of_nat (n : nat) : number := of_Z (Z.of_nat n).

(** The literal [0]. *)
Definition zero : number := S754_zero false.

(** A decimal literal with value [n/d], [n] and [d] exact integers: the
    binary64 value nearest to the quotient, which is what the correctly
    rounded division of the two returns ([0.8 = dec 8 10]). *)
Definition dec (n d : Z) : number := div (of_Z n) (of_Z d).

(** ToBoolean on numbers: [+0], [-0] and [NaN] are falsy. *)
Definition truthy (x : number) : bool :=
  match x with
  | S754_zero _ | S754_nan => false
  | _ => true
  end.

(** [Math.round(x)]: the integer nearest to [x], ties towards [+∞];
    [-0] for [-0.5 <= x < 0]; [x] itself when it is an integer, an
    infinity or NaN.  For [e < 0] the value is [±m / 2^(-e)], so
    [floor (x + 1/2) = (±2m + 2^(-e)) / 2^(1-e)] in integers. *)
Definition Math_round (x : number) : number :=
  match x with
  | S754_finite s m e =>
      if (0 <=? e)%Z then x
      else
        let k := ((2 * cond_Zopp s (Zpos m) + 2 ^ (- e)) / 2 ^ (1 - e))%Z in
        if (k =? 0)%Z then S754_zero s else of_Z k
  | _ => x
  end.

End Number.

Export Number.

(* ===================================================================== *)
(** ** 32-bit integer operators *)
(* ===================================================================== *)

(** The bitwise operators work on the 32-bit two's complement image of
    their operands.  An integer-valued number is an element of [Z]; the
    arithmetic between two bitwise operators in [simpleHash] stays far
    below [2^53], where [+] and [-] on numbers are exact. *)
Module Int32.

(** ToInt32: the integer congruent to [z] modulo [2^32] in
    [-2^31 .. 2^31 - 1]. *)
Definition ToInt32 (z : Z) : Z := ((z + 2 ^ 31) mod 2 ^ 32 - 2 ^ 31)%Z.

(** [a << k], for a shift count [0 <= k < 32]. *)
Definition shl (a k : Z) : Z := ToInt32 (Z.shiftl (ToInt32 a) k).

(** [a & b] *)
Definition band (a b : Z) : Z := ToInt32 (Z.land (ToInt32 a) (ToInt32 b)).

End Int32.

(** A property that may be [undefined]: [a || b] takes [b] when [a] is
    missing or falsy. *)
Definition or_number (a : option number) (b : number) : number :=
  match a with
  | Some x => if Number.truthy x then x else b
  | None => b
  end.

Definition or_string (a : option jsstring) (b : jsstring) : jsstring :=
  match a with
  | Some s => if JsString.truthy s then s else b
  | None => b
  end.

(* ===================================================================== *)
(** ** Data model *)
(* ===================================================================== *)

(** A retrieved passage, as [processQuestion] reads it: [content],
    [page_number], [metadata?.section] and [similarity]. *)
Module ChunkMetadata.
Record t := mk {
  section : option jsstring
}.
End ChunkMetadata.

Module Chunk.
Record t := mk {
  content : jsstring;
  page_number : N;
  metadata : option ChunkMetadata.t;
  similarity : option number
}.

(** [chunk.metadata?.section] *)
Definition section (c : t) : option jsstring :=
  match metadata c with
  | Some md => ChunkMetadata.section md
  | None => None
  end.
End Chunk.

Module QARequest.
Record t := mk {
  question : jsstring;
  bookId : jsstring;
  sessionId : option jsstring;
  userId : jsstring
}.
End QARequest.

Module Source.
Record t := mk {
  content : jsstring;
  pageNumber : N;
  section : option jsstring;
  confidence : number
}.
End Source.

Module QAResponse.
Record t := mk {
  answer : jsstring;
  sources : list Source.t;
  sessionId : jsstring
}.
End QAResponse.

Inductive Role := user | assistant | system.

(** What a [throw] carries: an [Error] object with its [message], or any
    other value. *)
Inductive Thrown :=
| Error (message : jsstring)
| NotAnError (value : jsstring).

(** The [error] member of a record-store reply. *)
Record DbError := { db_message : jsstring }.

(* ===================================================================== *)
(** ** The record store and the console *)
(* ===================================================================== *)

(** The [metadata] argument of [saveChatMessage]. *)
Module Metadata.
Record t := mk {
  sources : list jsstring;
  confidence : number
}.
End Metadata.

Module SessionRow.
Record t := mk {
  id : jsstring;
  user_id : jsstring;
  book_id : jsstring;
  title : jsstring;
  created_at : N;
  updated_at : N
}.
End SessionRow.

Module MessageRow.
Record t := mk {
  session_id : jsstring;
  content : jsstring;
  role : Role;
  metadata : option Metadata.t;
  created_at : N
}.
End MessageRow.

(** The object given to [from('chat_sessions').insert]. *)
Module SessionInsert.
Record t := mk {
  user_id : jsstring;
  book_id : jsstring;
  title : jsstring
}.
End SessionInsert.

(** The object given to [from('chat_messages').insert]. *)
Module MessageInsert.
Record t := mk {
  session_id : jsstring;
  content : jsstring;
  role : Role;
  metadata : option Metadata.t
}.
End MessageInsert.

(** What [console.error (label, payload)] prints. *)
Inductive Logged :=
| LogThrown (t : Thrown)
| LogDb (e : DbError).

Record World := mkWorld {
  chat_sessions : list SessionRow.t;     (* in insertion order *)
  chat_messages : list MessageRow.t;     (* in insertion order *)
  console : list (jsstring * Logged);    (* oldest line first *)
  clock : N                              (* the store's [now()] *)
}.

(* ===================================================================== *)
(** ** The completion end point *)
(* ===================================================================== *)

Module Groq.
Record Message := mkMessage {
  role : Role;
  content : jsstring
}.

Record Options := mkOptions {
  temperature : option number;
  maxTokens : option N;
  model : option jsstring
}.

(** The body [generateResponse] posts ([stream] is always [false]). *)
Record Request := mkRequest {
  req_model : jsstring;
  req_messages : list Message;
  req_temperature : number;
  req_max_tokens : N
}.

(** The parsed body of a reply, as far as it is read:
    [error?.message], and [choices] with each [message.content]. *)
Record Body := mkBody {
  error_message : option jsstring;
  choices : option (list jsstring)
}.

Record Response := mkResponse {
  ok : bool;
  status : N;
  statusText : jsstring;
  json : Thrown + Body                  (* [response.json()] may reject *)
}.
End Groq.

(* ===================================================================== *)
(** ** Collaborators *)
(* ===================================================================== *)

(** The replies of the three collaborators.  Each is an arbitrary function
    of the request and of the current world, so a proof that holds for
    every [Env] holds whatever they answer.

    - [searchSimilarContent] is [TextbookProcessor.searchSimilarContent];
      it returns passages or throws.
    - [session_insert] and [message_insert] say whether the store takes an
      insert ([session_insert] also yields the generated [id]);
      [messages_select] and [sessions_select] say whether a query fails.
    - [fetch] is the HTTP round trip to the completion end point. *)
Record Env := mkEnv {
  searchSimilarContent : World -> jsstring -> jsstring -> N -> Thrown + list Chunk.t;
  session_insert : World -> SessionInsert.t -> DbError + jsstring;
  message_insert : World -> MessageInsert.t -> option DbError;
  messages_select : World -> jsstring -> option DbError;
  sessions_select : World -> jsstring -> jsstring -> option DbError;
  fetch : World -> Groq.Request -> Thrown + Groq.Response
}.

(* ===================================================================== *)
(** ** Asynchronous code: state and exceptions *)
(* ===================================================================== *)

(** An [async] function is run to completion from a world; it either
    throws (the promise rejects) or returns (the promise resolves), and
    leaves a world behind.  [await] is sequencing. *)
Definition Async (A : Type) : Type := World -> (Thrown + A) * World.

Definition ret {A} (a : A) : Async A := fun w => (inr a, w).

Definition bind {A B} (m : Async A) (k : A -> Async B) : Async B :=
  fun w =>
    match m w with
    | (inl t, w') => (inl t, w')
    | (inr a, w') => k a w'
    end.

Definition throw {A} (t : Thrown) : Async A := fun w => (inl t, w).

(** [try { body } catch (error) { handler error }] *)
Definition try_catch {A} (body : Async A) (handler : Thrown -> Async A) : Async A :=
  fun w =>
    match body w with
    | (inl t, w') => handler t w'
    | (inr a, w') => (inr a, w')
    end.

(** Read the world (to consult an oracle). *)
Definition get_world : Async World := fun w => (inr w, w).

(** A value that is returned or thrown by a collaborator. *)
Definition settle {A} (r : Thrown + A) : Async A := fun w => (r, w).

(** The world after one more console line. *)
Definition log_line (label : jsstring) (payload : Logged) (w : World) : World :=
  mkWorld (chat_sessions w) (chat_messages w)
          (console w ++ [(label, payload)]) (clock w).

Definition console_error (label : jsstring) (payload : Logged) : Async unit :=
  fun w => (inr tt, log_line label payload w).

Declare Scope async_scope.
Delimit Scope async_scope with async.
Notation "'let*' x ':=' m 'in' k" := (bind m (fun x => k))
  (at level 10, x name, m at level 100, k at level 200) : async_scope.
Notation "m ';;' k" := (bind m (fun _ => k))
  (at level 100, k at level 200, right associativity) : async_scope.
Open Scope async_scope.

(* ===================================================================== *)
(** ** The record store *)
(* ===================================================================== *)

(** Modelled from the spec: the record store is a service outside the
    repository; section 6 of the specification asks of it an insert with a
    generated identifier, filtering by equality on columns, and ordering
    by a timestamp column, ascending or descending.  An accepted insert
    appends the row, stamped with the store's clock, and advances the
    clock; a rejected insert changes nothing.  A query that does not fail
    returns the matching rows in the order asked for.  The client never
    rejects: a failure comes back in the [error] member of the reply. *)
Module Store.

(** The [{ data, error }] pair every call resolves to. *)
Record Reply (A : Type) := mkReply {
  data : option A;
  error : option DbError
}.
Arguments mkReply {A}.
Arguments data {A}.
Arguments error {A}.

(** [.order(column, { ascending: true })] and [{ ascending: false }] *)
Definition ascending {A} (key : A -> N) : relation A :=
  fun a b => (key a <= key b)%N.
Definition descending {A} (key : A -> N) : relation A :=
  fun a b => (key b <= key a)%N.

#[global] Instance ascending_dec {A} (key : A -> N) a b :
  Decision (ascending key a b) := N.le_dec (key a) (key b).
#[global] Instance descending_dec {A} (key : A -> N) a b :
  Decision (descending key a b) := N.le_dec (key b) (key a).

(** [.eq(column, value)] on a text column *)
Definition eq_string (a b : jsstring) : bool := bool_decide (a = b).

Section WithEnv.
Context (E : Env).

(** [from('chat_sessions').insert(row).select('id').single()] *)
Definition insert_session (row : SessionInsert.t) : Async (Reply jsstring) :=
  fun w =>
    match session_insert E w row with
    | inl e => (inr (mkReply None (Some e)), w)
    | inr new_id =>
        (inr (mkReply (Some new_id) None),
         mkWorld
           (chat_sessions w ++
              [SessionRow.mk new_id (SessionInsert.user_id row)
                 (SessionInsert.book_id row) (SessionInsert.title row)
                 (clock w) (clock w)])
           (chat_messages w) (console w) (N.succ (clock w)))
    end.

(** [from('chat_messages').insert(row)] *)
Definition insert_message (row : MessageInsert.t) : Async (Reply unit) :=
  fun w =>
    match message_insert E w row with
    | Some e => (inr (mkReply None (Some e)), w)
    | None =>
        (inr (mkReply None None),
         mkWorld
           (chat_sessions w)
           (chat_messages w ++
              [MessageRow.mk (MessageInsert.session_id row)
                 (MessageInsert.content row) (MessageInsert.role row)
                 (MessageInsert.metadata row) (clock w)])
           (console w) (N.succ (clock w)))
    end.


(** [from('chat_messages').select('*').eq('session_id', sid)
      .order('created_at', { ascending: true })] *)
Definition select_messages (sid : jsstring) : Async (Reply (list MessageRow.t)) :=
  fun w =>
    match messages_select E w sid with
    | Some e => (inr (mkReply None (Some e)), w)
    | None =>
        (inr (mkReply
                (Some (merge_sort (ascending MessageRow.created_at)
                         (List.filter
                            (fun m => eq_string (MessageRow.session_id m) sid)
                            (chat_messages w))))
                None), w)
    end.

(** [from('chat_sessions').select('*').eq('user_id', uid)
      .eq('book_id', bid).order('updated_at', { ascending: false })] *)
Definition select_sessions (uid bid : jsstring) : Async (Reply (list SessionRow.t)) :=
  fun w =>
    match sessions_select E w uid bid with
    | Some e => (inr (mkReply None (Some e)), w)
    | None =>
        (inr (mkReply
                (Some (merge_sort (descending SessionRow.updated_at)
                         (List.filter
                            (fun s => eq_string (SessionRow.user_id s) uid
                                      && eq_string (SessionRow.book_id s) bid)
                            (chat_sessions w))))
                None), w)
    end.
End WithEnv.

End Store.

(* ===================================================================== *)
(** ** GroqService (services/groq.ts) *)
(* ===================================================================== *)

Module GroqService.

Definition DEFAULT_MODEL : jsstring := lit "llama-3.1-70b-versatile".

Section WithEnv.
Context (E : Env).

Definition generateResponse
    (messages : list Groq.Message) (options : Groq.Options) : Async jsstring :=
  try_catch
    (let temperature := default (dec 3 10) (Groq.temperature options) in
     let maxTokens := default 1000%N (Groq.maxTokens options) in
     let model := default DEFAULT_MODEL (Groq.model options) in
     let* w := get_world in
     let* response :=
       settle (fetch E w (Groq.mkRequest model messages temperature maxTokens)) in
     (if negb (Groq.ok response) then
        (* [await response.json().catch(() => ({}))] *)
        let errorData :=
          match Groq.json response with
          | inr body => body
          | inl _ => Groq.mkBody None None
          end in
        throw (Error (lit "Groq API error: " ++ of_N (Groq.status response)
                      ++ lit " - "
                      ++ or_string (Groq.error_message errorData)
                                   (Groq.statusText response)))
      else ret tt) ;;
     let* data := settle (Groq.json response) in
     match Groq.choices data with
     | None | Some [] =>
         throw (Error (lit "No response generated from Groq API"))
     | Some (first :: _) => ret (trim first)
     end)
    (fun error =>
       console_error (lit "Error calling Groq API:") (LogThrown error) ;;
       throw (Error
                match error with
                | Error message =>
                    lit "ไม่สามารถเชื่อมต่อกับ AI ได้: " ++ message
                | NotAnError _ =>
                    lit "เกิดข้อผิดพลาดในการเชื่อมต่อกับ AI"
                end)).
End WithEnv.

(** [simpleHash]: the loop over [str.charCodeAt(i)], from [hash = 0]. *)
Definition simpleHash (str : jsstring) : Z :=
  fold_left
    (fun hash char =>
       let hash := (Int32.shl hash 5 - hash + Z.of_N char)%Z in
       Int32.band hash hash)          (* Convert to 32-bit integer *)
    str 0%Z.

Section Embedding.
(** [Math.sin] is left to the engine by the language; it is any function
    on numbers here. *)
Context (Math_sin : number -> number).

(** [getEmbedding]: [new Array(1536).fill(0).map((_, i) => ...)].  The
    method is [async] and awaits nothing: its promise resolves with this
    array. *)
Definition getEmbedding (text : jsstring) : list number :=
  let hash := of_Z (simpleHash text) in
  let embedding :=
    imap (fun i _ => mul (Math_sin (add hash (of_nat i))) (dec 5 10))
         (replicate 1536 zero) in
  embedding.
End Embedding.

Section Connection.
Context (E : Env).

Definition checkConnection : Async bool :=
  try_catch
    (let* response :=
       generateResponse E [Groq.mkMessage user (lit "สวัสดี")]
         (Groq.mkOptions None (Some 10%N) None) in
     ret (bool_decide (0 < length response)))
    (fun error =>
       console_error (lit "Groq connection check failed:") (LogThrown error) ;;
       ret false).
End Connection.


End GroqService.

(* ===================================================================== *)
(** ** QAService (services/qaService.ts) *)
(* ===================================================================== *)

Module QAService.

(** The double quote, which the prompt text contains. *)
Definition dq : jsstring := [34%N].

(** The message every failure of [processQuestion] is replaced by. *)
Definition PROCESSING_ERROR : jsstring :=
  lit "ขออภัยครับ/ค่ะ เกิดข้อผิดพลาดในการประมวลผลคำถาม กรุณาลองใหม่อีกครั้งนะครับ".

(** What [buildContext] returns when there is no passage. *)
Definition NO_CONTENT : jsstring := lit "ไม่พบเนื้อหาที่เกี่ยวข้องในหนังสือ".

(** The argument of [join] in [buildContext]. *)
Definition SEPARATOR : jsstring := lit "

---

".

(** [buildContext]: one block per chunk, [map] with the index, [join]. *)
Definition contextPart (index : nat) (chunk : Chunk.t) : jsstring :=
  lit "[ส่วนที่ " ++ of_N (N.of_nat (index + 1)) ++ lit " - หน้า "
    ++ of_N (Chunk.page_number chunk) ++ lit "]
" ++ Chunk.content chunk.

Definition buildContext (chunks : list Chunk.t) : jsstring :=
  if decide (length chunks = 0) then NO_CONTENT
  else
    let contextParts := imap contextPart chunks in
    join SEPARATOR contextParts.

(** [calculateConfidence]: [reduce] from [0], divide by [length], round. *)
Definition calculateConfidence (chunks : list Chunk.t) : number :=
  if decide (length chunks = 0) then zero
  else
    let avgSimilarity :=
      div (fold_left
             (fun sum chunk => add sum (or_number (Chunk.similarity chunk) (dec 8 10)))
             chunks zero)
          (of_nat (length chunks)) in
    div (Math_round (mul avgSimilarity (of_Z 100))) (of_Z 100).

(** The system prompt of [generateContextualAnswer], around [context]. *)
Definition systemPrompt (context : jsstring) : jsstring :=
    lit "คุณเป็น AI ผู้ช่วยการเรียนรู้ที่เชี่ยวชาญในการตอบคำถามจากเนื้อหาหนังสือการศึกษา

## บทบาทและหน้าที่ของคุณ:
คุณเป็นครูผู้ช่วยที่อดทน เข้าใจ และเป็นมิตรกับนักเรียน มีความเชี่ยวชาญในการอธิบายเนื้อหาให้เข้าใจง่าย

## หลักการตอบคำถาม:
1. **ใช้เฉพาะเนื้อหาที่ให้มา**: ตอบคำถามโดยอิงจากเนื้อหาในหนังสือเท่านั้น ห้ามแต่งเติมข้อมูลจากภายนอก
2. **ภาษาไทยที่เข้าใจง่าย**: ใช้ภาษาไทยที่ชัดเจน เหมาะสำหรับนักเรียนระดับมัธยมศึกษา
3. **โครงสร้างที่ชัดเจน**: จัดเรียงคำตอบให้มีหัวข้อ ข้อย่อย และตัวอย่างประกอบ
4. **ตอบตรงประเด็น**: ตอบเฉพาะสิ่งที่ถูกถาม ไม่ขยายความนอกเรื่อง
5. **ให้กำลังใจ**: ใช้น้ำเสียงที่ให้กำลังใจและสร้างแรงบันดาลใจในการเรียนรู้
6. **ใช้คำสุภาพ**: ใช้คำว่า " ++
    dq ++
    lit "ครับ/ค่ะ" ++
    dq ++
    lit " ในการตอบทุกครั้ง และเรียกผู้ถามว่า " ++
    dq ++
    lit "นักเรียน" ++
    dq ++
    lit " หรือ " ++
    dq ++
    lit "น้อง" ++
    dq ++
    lit "

## รูปแบบการตอบ:
- เริ่มต้นด้วยการทักทายและแสดงความเข้าใจในคำถาม (ใช้ครับ/ค่ะ)
- อธิบายแนวคิดหลักอย่างชัดเจน
- ให้ตัวอย่างจากเนื้อหาหนังสือ (ถ้ามี)
- สรุปประเด็นสำคัญ
- ปิดท้ายด้วยการสอบถามว่ามีคำถามเพิ่มเติมหรือไม่ (ใช้ครับ/ค่ะ)

## ตัวอย่างการใช้คำสุภาพ:
- " ++
    dq ++
    lit "ครูเข้าใจคำถามของนักเรียนแล้วนะครับ/ค่ะ" ++
    dq ++
    lit "
- " ++
    dq ++
    lit "จากเนื้อหาในหนังสือ สามารถอธิบายได้ดังนี้ครับ/ค่ะ" ++
    dq ++
    lit "
- " ++
    dq ++
    lit "หวังว่าคำอธิบายนี้จะช่วยให้เข้าใจมากขึ้นนะครับ/ค่ะ" ++
    dq ++
    lit "
- " ++
    dq ++
    lit "มีคำถามอื่นอีกไหมครับ/ค่ะ?" ++
    dq ++
    lit "

## สิ่งที่ห้ามทำ:
❌ ห้ามแต่งข้อมูลที่ไม่มีในหนังสือ
❌ ห้ามใช้ภาษาที่ซับซ้อนเกินไป
❌ ห้ามตอบนอกเรื่องหรือขยายความมากเกินไป
❌ ห้ามใช้น้ำเสียงที่เป็นทางการจนเกินไป
❌ ห้ามลืมใช้คำว่า " ++
    dq ++
    lit "ครับ/ค่ะ" ++
    dq ++
    lit " ในการตอบ
❌ ห้ามให้ข้อมูลที่อาจเป็นอันตรายหรือไม่เหมาะสม

## เมื่อไม่พบข้อมูล:
หากไม่พบข้อมูลที่เกี่ยวข้องในหนังสือ ให้ตอบว่า:
" ++
    dq ++
    lit "ขออภัยนะครับ/ค่ะ ในหนังสือเล่มนี้ไม่มีข้อมูลเกี่ยวกับเรื่องที่นักเรียนถามโดยตรง แต่ถ้ามีคำถามอื่นเกี่ยวกับเนื้อหาในหนังสือ ครูยินดีช่วยอธิบายให้ฟังนะครับ/ค่ะ" ++
    dq ++
    lit "

## เนื้อหาจากหนังสือ:
" ++
    context ++
    lit "

จำไว้: คุณเป็นครูที่ใส่ใจนักเรียน อยากให้นักเรียนเข้าใจและรักการเรียนรู้ ตอบด้วยความอดทนและความเข้าใจเสมอ และอย่าลืมใช้คำว่า " ++
    dq ++
    lit "ครับ/ค่ะ" ++
    dq ++
    lit " ในทุกการตอบครับ".

(** Step 6 of [processQuestion], the function given to [map]: one entry
    of [sources] per chunk. *)
Definition formatSource (chunk : Chunk.t) : Source.t :=
  Source.mk (substring0 200 (Chunk.content chunk) ++ lit "...")
            (Chunk.page_number chunk)
            (Chunk.section chunk)
            (or_number (Chunk.similarity chunk) (dec 8 10)).

Section WithEnv.
Context (E : Env).

Definition createChatSession (userId bookId firstQuestion : jsstring)
  : Async jsstring :=
  let sessionTitle :=
    if decide (50 < length firstQuestion)
    then substring0 50 firstQuestion ++ lit "..."
    else firstQuestion in
  let* reply :=
    Store.insert_session E (SessionInsert.mk userId bookId sessionTitle) in
  match Store.error reply, Store.data reply with
  | Some error, _ =>
      throw (Error (lit "Failed to create chat session: " ++ db_message error))
  | None, Some new_id => ret new_id
  | None, None =>
      (* [data.id] on [null] *)
      throw (Error (lit "Cannot read properties of null (reading 'id')"))
  end.

Definition generateContextualAnswer
    (question context : jsstring) (relevantChunks : list Chunk.t)
  : Async jsstring :=
  let messages :=
    [ Groq.mkMessage system (systemPrompt context);
      Groq.mkMessage user (lit "คำถาม: " ++ question) ] in
  GroqService.generateResponse E messages
    (Groq.mkOptions (Some (dec 3 10)) (Some 1200%N)
                    (Some (lit "llama-3.1-70b-versatile"))).

Definition saveChatMessage
    (sessionId content : jsstring) (role : Role) (metadata : option Metadata.t)
  : Async unit :=
  let* reply :=
    Store.insert_message E (MessageInsert.mk sessionId content role metadata) in
  match Store.error reply with
  | Some error => console_error (lit "Error saving chat message:") (LogDb error)
  | None => ret tt
  end.

(** Step 2 of [processQuestion], the expression
    [request.sessionId || await this.createChatSession(...)]: the
    right operand runs only when the left one is missing or falsy. *)
Definition resolveSession (request : QARequest.t) : Async jsstring :=
  match QARequest.sessionId request with
  | Some sid =>
      if JsString.truthy sid then ret sid
      else createChatSession (QARequest.userId request)
             (QARequest.bookId request) (QARequest.question request)
  | None =>
      createChatSession (QARequest.userId request)
        (QARequest.bookId request) (QARequest.question request)
  end.

Definition processQuestion (request : QARequest.t) : Async QAResponse.t :=
  try_catch
    ((* 1. Search for relevant content from the book *)
     let* w := get_world in
     let* relevantChunks :=
       settle (searchSimilarContent E w (QARequest.question request)
                 (QARequest.bookId request) 5%N) in
     (* 2. Create or get chat session: [request.sessionId || await ...] *)
     let* sessionId := resolveSession request in
     (* 3. Build context from relevant chunks *)
     let context := buildContext relevantChunks in
     (* 4. Generate AI response using the context *)
     let* answer :=
       generateContextualAnswer (QARequest.question request) context
         relevantChunks in
     (* 5. Save the conversation *)
     saveChatMessage sessionId (QARequest.question request) user None ;;
     saveChatMessage sessionId answer assistant
       (Some (Metadata.mk (map Chunk.content relevantChunks)
                          (calculateConfidence relevantChunks))) ;;
     (* 6. Format sources for response *)
     let sources := map formatSource relevantChunks in
     ret (QAResponse.mk answer sources sessionId))
    (fun error =>
       console_error (lit "Error processing question:") (LogThrown error) ;;
       throw (Error PROCESSING_ERROR)).

Definition getChatHistory (sessionId : jsstring) : Async (list MessageRow.t) :=
  let* reply := Store.select_messages E sessionId in
  match Store.error reply with
  | Some error =>
      console_error (lit "Error fetching chat history:") (LogDb error) ;;
      ret []
  | None => ret (default [] (Store.data reply))
  end.

Definition getUserChatSessions (userId bookId : jsstring)
  : Async (list SessionRow.t) :=
  let* reply := Store.select_sessions E userId bookId in
  match Store.error reply with
  | Some error =>
      console_error (lit "Error fetching chat sessions:") (LogDb error) ;;
      ret []
  | None => ret (default [] (Store.data reply))
  end.
End WithEnv.

End QAService.

(* ===================================================================== *)
(** ** The specification's wording, for comparison with the code *)
(* ===================================================================== *)

Module Spec.

(** "Rounded to 2 decimal places": [Math.round(x * 100) / 100]. *)
Definition round2 (x : number) : number :=
  div (Math_round (mul x (of_Z 100))) (of_Z 100).

(** "Arithmetic mean": the sum, accumulated from [0] in list order,
    over the count. *)
Definition mean (xs : list number) : number :=
  div (fold_left add xs zero) (of_nat (length xs)).

(** The neutral prior, [0.8]. *)
Definition prior : number := dec 8 10.

(** Section 4.4 as written: a passage contributes its score, and [0.8]
    when the score is missing. *)
Definition contribution_as_written (c : Chunk.t) : number :=
  match Chunk.similarity c with
  | Some x => x
  | None => prior
  end.

Definition confidence_as_written (passages : list Chunk.t) : number :=
  match passages with
  | [] => zero
  | _ => round2 (mean (map contribution_as_written passages))
  end.

(** The same with the prior also standing in for a score that is zero
    (of either sign) or NaN. *)
Definition contribution (c : Chunk.t) : number :=
  match Chunk.similarity c with
  | None => prior
  | Some (S754_zero _) => prior
  | Some S754_nan => prior
  | Some x => x
  end.

Definition confidence (passages : list Chunk.t) : number :=
  match passages with
  | [] => zero
  | _ => round2 (mean (map contribution passages))
  end.

(** A passage with its score, if it is a zero, taken away. *)
Definition without_zero_score (c : Chunk.t) : Chunk.t :=
  match Chunk.similarity c with
  | Some (S754_zero _) =>
      Chunk.mk (Chunk.content c) (Chunk.page_number c) (Chunk.metadata c) None
  | _ => c
  end.

(** Section 4.2: the header of the [k]-th block (counting from 1) of a
    passage found on page [page]. *)
Definition header (k page : N) : jsstring :=
  lit "[ส่วนที่ " ++ of_N k ++ lit " - หน้า " ++ of_N page ++ lit "]".

Definition newline : jsstring := [10%N].

Definition block (k : N) (c : Chunk.t) : jsstring :=
  header k (Chunk.page_number c) ++ newline ++ Chunk.content c.

(** [needle] occurs in [hay]. *)
Definition occurs_in (needle hay : jsstring) : Prop :=
  exists before after : jsstring, hay = before ++ needle ++ after.

(** The code unit [c] is one of [s]. *)
Definition has_unit (c : code_unit) (s : jsstring) : bool :=
  existsb (N.eqb c) s.

(** The ellipsis marker. *)
Definition ellipsis : jsstring := lit "...".

(** Section 3: the title of a session opened by [question]. *)
Definition title_of (question : jsstring) : jsstring :=
  if decide (length question <= 50) then question
  else take 50 question ++ ellipsis.

(** The rows a call leaves in [chat_messages] when the store takes both
    inserts, the second stamped [stamp + 1]. *)
Definition user_row (sid question : jsstring) (stamp : N) : MessageRow.t :=
  MessageRow.mk sid question user None stamp.

Definition assistant_row (sid answer : jsstring) (chunks : list Chunk.t)
    (stamp : N) : MessageRow.t :=
  MessageRow.mk sid answer assistant
    (Some (Metadata.mk (map Chunk.content chunks)
                       (QAService.calculateConfidence chunks)))
    stamp.

End Spec.

(* ===================================================================== *)
(** ** Concrete worlds and collaborators *)
(* ===================================================================== *)

Module Scenario.

Definition empty_world : World := mkWorld [] [] [] 0.

Definition passage (text : string) (page : N) (score : option number) : Chunk.t :=
  Chunk.mk (lit text) page None score.

Definition scored (n d : Z) : Chunk.t := passage "photosynthesis" 12 (Some (dec n d)).
Definition unscored : Chunk.t := passage "photosynthesis" 12 None.
Definition scored_zero : Chunk.t := passage "photosynthesis" 12 (Some zero).

Definition two_passages : list Chunk.t :=
  [passage "chlorophyll absorbs light" 7 (Some (dec 9 10));
   passage "the Calvin cycle fixes carbon" 9 (Some (dec 7 10))].

Definition completion_ok : Groq.Response :=
  Groq.mkResponse true 200 (lit "OK")
    (inr (Groq.mkBody None (Some [lit "  Plants make sugar from light.  "]))).

Definition completion_429 : Groq.Response :=
  Groq.mkResponse false 429 (lit "Too Many Requests")
    (inr (Groq.mkBody (Some (lit "Rate limit reached")) None)).

Definition store_down : DbError := Build_DbError (lit "connection refused").

(** Every collaborator answers. *)
Definition all_well : Env :=
  mkEnv (fun _ _ _ _ => inr two_passages)
        (fun _ _ => inr (lit "session-1"))
        (fun _ _ => None)
        (fun _ _ => None)
        (fun _ _ _ => None)
        (fun _ _ => inr completion_ok).

(** The completion end point answers 429. *)
Definition completion_refuses : Env :=
  mkEnv (fun _ _ _ _ => inr two_passages)
        (fun _ _ => inr (lit "session-1"))
        (fun _ _ => None)
        (fun _ _ => None)
        (fun _ _ _ => None)
        (fun _ _ => inr completion_429).

(** Retrieval throws. *)
Definition retrieval_throws : Env :=
  mkEnv (fun _ _ _ _ => inl (Error (lit "embedding service unreachable")))
        (fun _ _ => inr (lit "session-1"))
        (fun _ _ => None)
        (fun _ _ => None)
        (fun _ _ _ => None)
        (fun _ _ => inr completion_ok).

(** The store takes assistant messages and turns user messages down. *)
Definition user_insert_rejected : Env :=
  mkEnv (fun _ _ _ _ => inr two_passages)
        (fun _ _ => inr (lit "session-1"))
        (fun _ row =>
           match MessageInsert.role row with
           | user => Some store_down
           | _ => None
           end)
        (fun _ _ => None)
        (fun _ _ _ => None)
        (fun _ _ => inr completion_ok).

(** The store turns every message down and fails every query. *)
Definition messages_rejected : Env :=
  mkEnv (fun _ _ _ _ => inr two_passages)
        (fun _ _ => inr (lit "session-1"))
        (fun _ _ => Some store_down)
        (fun _ _ => Some store_down)
        (fun _ _ _ => Some store_down)
        (fun _ _ => inr completion_ok).

Definition first_question : QARequest.t :=
  QARequest.mk (lit "What is photosynthesis?") (lit "doc1") None (lit "u1").

Definition follow_up : QARequest.t :=
  QARequest.mk (lit "And respiration?") (lit "doc1") (Some (lit "session-7"))
               (lit "u1").

(** A request whose [sessionId] is there and is the empty string. *)
Definition empty_session_id : QARequest.t :=
  QARequest.mk (lit "What is photosynthesis?") (lit "doc1") (Some []) (lit "u1").

(** A question of 60 code units. *)
Definition long_question : jsstring :=
  lit "Why do the leaves of deciduous trees change colour in autumn".

(** A store holding two sessions and three messages. *)
Definition busy_world : World :=
  mkWorld
    [SessionRow.mk (lit "session-1") (lit "u1") (lit "doc1") (lit "first") 0 5;
     SessionRow.mk (lit "session-2") (lit "u1") (lit "doc1") (lit "second") 1 9;
     SessionRow.mk (lit "session-3") (lit "u2") (lit "doc1") (lit "other") 2 7]
    [MessageRow.mk (lit "session-1") (lit "q1") user None 3;
     MessageRow.mk (lit "session-2") (lit "q2") user None 4;
     MessageRow.mk (lit "session-1") (lit "a1") assistant None 6]
    [] 10.

(** The completion end point answers with blanks. *)
Definition completion_blank : Groq.Response :=
  Groq.mkResponse true 200 (lit "OK")
    (inr (Groq.mkBody None (Some [lit "   "; lit "second choice"]))).

Definition completion_is_blank : Env :=
  mkEnv (fun _ _ _ _ => inr two_passages)
        (fun _ _ => inr (lit "session-1"))
        (fun _ _ => None)
        (fun _ _ => None)
        (fun _ _ _ => None)
        (fun _ _ => inr completion_blank).

(** Retrieval finds nothing. *)
Definition nothing_found : Env :=
  mkEnv (fun _ _ _ _ => inr [])
        (fun _ _ => inr (lit "session-1"))
        (fun _ _ => None)
        (fun _ _ => None)
        (fun _ _ _ => None)
        (fun _ _ => inr completion_ok).

(** The store turns the session down. *)
Definition session_rejected : Env :=
  mkEnv (fun _ _ _ _ => inr two_passages)
        (fun _ _ => inl store_down)
        (fun _ _ => None)
        (fun _ _ => None)
        (fun _ _ _ => None)
        (fun _ _ => inr completion_ok).

(** The model [generateContextualAnswer] asks for. *)
Definition qa_model : jsstring := lit "llama-3.1-70b-versatile".

End Scenario.

(* ===================================================================== *)
(** ** What the steps of [processQuestion] leave behind *)
(* ===================================================================== *)

Module Run.

(** The [catch] clause of [processQuestion] entered with [cause] from
    world [w]: one console line, and the fixed error. *)
Definition rejected (cause : Thrown) (w : World) : (Thrown + QAResponse.t) * World :=
  (inl (Error QAService.PROCESSING_ERROR),
   log_line (lit "Error processing question:") (LogThrown cause) w).

(** The row an accepted insert of [row] adds, stamped by the clock. *)
Definition stamped (row : MessageInsert.t) (stamp : N) : MessageRow.t :=
  MessageRow.mk (MessageInsert.session_id row) (MessageInsert.content row)
                (MessageInsert.role row) (MessageInsert.metadata row) stamp.

(** The world after [saveChatMessage] has tried to insert [row]. *)
Definition saved (E : Env) (row : MessageInsert.t) (w : World) : World :=
  match message_insert E w row with
  | Some e => log_line (lit "Error saving chat message:") (LogDb e) w
  | None =>
      mkWorld (chat_sessions w) (chat_messages w ++ [stamped row (clock w)])
              (console w) (N.succ (clock w))
  end.

(** The rows that attempt adds to [chat_messages]. *)
Definition kept (E : Env) (row : MessageInsert.t) (w : World) : list MessageRow.t :=
  match message_insert E w row with
  | Some _ => []
  | None => [stamped row (clock w)]
  end.

(** The two inserts of step 5. *)
Definition user_insert (sid question : jsstring) : MessageInsert.t :=
  MessageInsert.mk sid question user None.

Definition assistant_insert (sid answer : jsstring) (chunks : list Chunk.t)
  : MessageInsert.t :=
  MessageInsert.mk sid answer assistant
    (Some (Metadata.mk (map Chunk.content chunks)
                       (QAService.calculateConfidence chunks))).

(** The message [generateResponse] throws for what it caught. *)
Definition groq_message (cause : Thrown) : jsstring :=
  match cause with
  | Error message => lit "ไม่สามารถเชื่อมต่อกับ AI ได้: " ++ message
  | NotAnError _ => lit "เกิดข้อผิดพลาดในการเชื่อมต่อกับ AI"
  end.

(** A step of [processQuestion] before the saving of the messages throws
    [cause], leaving world [w']: retrieval, the creation of the session,
    or the generation of the answer. *)
Inductive StepFails (E : Env) (request : QARequest.t) (w : World)
  : Thrown -> World -> Prop :=
| retrieval_fails cause :
    searchSimilarContent E w (QARequest.question request)
      (QARequest.bookId request) 5%N = inl cause ->
    StepFails E request w cause w
| session_fails chunks cause w1 :
    searchSimilarContent E w (QARequest.question request)
      (QARequest.bookId request) 5%N = inr chunks ->
    QAService.resolveSession E request w = (inl cause, w1) ->
    StepFails E request w cause w1
| generation_fails chunks sid w1 cause w2 :
    searchSimilarContent E w (QARequest.question request)
      (QARequest.bookId request) 5%N = inr chunks ->
    QAService.resolveSession E request w = (inr sid, w1) ->
    QAService.generateContextualAnswer E (QARequest.question request)
      (QAService.buildContext chunks) chunks w1 = (inl cause, w2) ->
    StepFails E request w cause w2.

End Run.

(* ===================================================================== *)
(** ** Observations *)
(* ===================================================================== *)

Module View.

(** The body [generateResponse] posts for [messages] and [options]. *)
Definition posted (messages : list Groq.Message) (options : Groq.Options)
  : Groq.Request :=
  Groq.mkRequest (default GroqService.DEFAULT_MODEL (Groq.model options))
    messages (default (dec 3 10) (Groq.temperature options))
    (default 1000%N (Groq.maxTokens options)).

(** The two messages [generateContextualAnswer] sends. *)
Definition prompt (question context : jsstring) : list Groq.Message :=
  [ Groq.mkMessage system (QAService.systemPrompt context);
    Groq.mkMessage user (lit "คำถาม: " ++ question) ].

(** The text a reply from the completion end point yields, if any: the
    reply is [ok], its body parses, and [choices] has a first entry. *)
Definition completion (outcome : Thrown + Groq.Response) : option jsstring :=
  match outcome with
  | inr response =>
      if Groq.ok response then
        match Groq.json response with
        | inr body =>
            match Groq.choices body with
            | Some (first :: _) => Some (trim first)
            | _ => None
            end
        | inl _ => None
        end
      else None
  | inl _ => None
  end.

(** No white space at either end. *)
Definition trimmed (s : jsstring) : Prop :=
  (forall c, head s = Some c -> is_white c = false)
  /\ (forall c, last s = Some c -> is_white c = false).

(** The messages of a session, in insertion order. *)
Definition history (sid : jsstring) (w : World) : list MessageRow.t :=
  List.filter (fun m => Store.eq_string (MessageRow.session_id m) sid)
              (chat_messages w).

(** The stamps of the messages grow strictly along the table and stay
    below the clock, as they do in any store that started empty. *)
Definition stamped (w : World) : Prop :=
  StronglySorted N.lt (map MessageRow.created_at (chat_messages w))
  /\ Forall (fun m => (MessageRow.created_at m < clock w)%N) (chat_messages w).

(** The integer [simpleHash] reduces modulo [2^32]: Horner's rule in
    base 31 over the code units. *)
Definition horner (str : jsstring) : Z :=
  fold_left (fun acc char => (31 * acc + Z.of_N char)%Z) str 0%Z.

(** Calls of [processQuestion] awaited one after the other. *)
Fixpoint ask_all (E : Env) (requests : list QARequest.t)
  : Async (list QAResponse.t) :=
  match requests with
  | [] => ret []
  | request :: rest =>
      let* response := QAService.processQuestion E request in
      let* responses := ask_all E rest in
      ret (response :: responses)
  end.

(** The rows of one turn, without their stamps. *)
Definition turn_roles (n : nat) : list Role :=
  concat (replicate n [user; assistant]).

End View.

(* ===================================================================== *)
(** ** ChatBot (components/ChatBot.tsx): sending a message *)
(* ===================================================================== *)

Module ChatBot.

Record Message := mkMessage {
  id : jsstring;
  text : jsstring;
  isBot : bool;
  timestamp : N;                         (* the time value of the [Date] *)
  sources : option (list Source.t)
}.

(** [selectedBook] *)
Record Book := mkBook {
  book_id : jsstring;
  title : jsstring;
  author : jsstring
}.

(** The state hooks [handleSendMessage] reads and sets. *)
Record State := mkState {
  messages : list Message;
  inputText : jsstring;
  isTyping : bool;
  sessionId : option jsstring            (* [string | null] *)
}.

(** The text shown when the call fails. *)
Definition TECHNICAL_PROBLEM : jsstring :=
  lit "ขออภัยนะครับ/ค่ะ 😅 ตอนนี้ครูมีปัญหาทางเทคนิคเล็กน้อย

กรุณาลองถามใหม่อีกครั้งในอีกสักครู่นะครับ หรือลองเปลี่ยนคำถามดูครับ

🔧 ครูกำลังแก้ไขปัญหาให้เร็วที่สุดแล้วนะ!".

(** [sessionId || undefined] *)
Definition or_undefined (sessionId : option jsstring) : option jsstring :=
  match sessionId with
  | Some sid => if JsString.truthy sid then Some sid else None
  | None => None
  end.

(** [!sessionId] *)
Definition not_set (sessionId : option jsstring) : bool :=
  match sessionId with
  | Some sid => negb (JsString.truthy sid)
  | None => true
  end.

Section Handler.
(** [Date_now n] is what the [n]-th reading of the wall clock in one run
    of the handler returns ([Date.now()] and [new Date()], in program
    order); it is any function. *)
Context (E : Env) (Date_now : nat -> N).

(** [handleSendMessage] with a book selected (the branch
    [if (selectedBook)]), from the state of the render it closes over;
    the state updates are applied in program order, and the state after
    the last one is returned. *)
Definition handleSendMessage (selectedBook : Book) (s : State) : Async State :=
  if negb (JsString.truthy (trim (inputText s))) then ret s
  else
    let userMessage :=
      mkMessage (of_N (Date_now 0)) (inputText s) false (Date_now 1) None in
    (* setMessages(prev => [...prev, userMessage]); setInputText('');
       setIsTyping(true) *)
    let s1 := mkState (messages s ++ [userMessage]) [] true (sessionId s) in
    let* s2 :=
      try_catch
        (let* response :=
           QAService.processQuestion E
             (QARequest.mk (inputText s) (book_id selectedBook)
                (or_undefined (sessionId s)) (lit "current-user-id")) in
         let session :=
           if not_set (sessionId s)
           then Some (QAResponse.sessionId response)
           else sessionId s1 in
         let botResponse :=
           mkMessage (of_N (Date_now 2 + 1)) (QAResponse.answer response) true
                     (Date_now 3) (Some (QAResponse.sources response)) in
         ret (mkState (messages s1 ++ [botResponse]) (inputText s1)
                      (isTyping s1) session))
        (fun error =>
           console_error (lit "Error sending message:") (LogThrown error) ;;
           let errorMessage :=
             mkMessage (of_N (Date_now 2 + 1)) TECHNICAL_PROBLEM true
                       (Date_now 3) None in
           ret (mkState (messages s1 ++ [errorMessage]) (inputText s1)
                        (isTyping s1) (sessionId s1))) in
    (* finally { setIsTyping(false) } *)
    ret (mkState (messages s2) (inputText s2) false (sessionId s2)).
End Handler.

End ChatBot.

(** String literals stay folded in proofs; [vm_compute] evaluates them. *)
Arguments lit : simpl never.
Opaque lit.

(* ===================================================================== *)
(** ** The number and string models on known values *)
(* ===================================================================== *)

(** [0.8] is [0x3FE999999999999A], [0.6] is [0x3FE3333333333333]. *)
Example literal_0_8 : dec 8 10 = S754_finite false 0x1999999999999A (-53).
Proof. vm_compute. reflexivity. Qed.

Example literal_0_6 : dec 6 10 = S754_finite false 0x13333333333333 (-53).
Proof. vm_compute. reflexivity. Qed.

(** [0.4 + 0.8] is [1.2000000000000002], not [1.2]. *)
Example sum_0_4_0_8 :
  add (dec 4 10) (dec 8 10) = S754_finite false 0x13333333333334 (-52)
  /\ add (dec 4 10) (dec 8 10) <> dec 12 10.
Proof. vm_compute. split; [reflexivity|discriminate]. Qed.

(** [Math.round] on halves, on a negative fraction and on an integer. *)
Example Math_round_values :
  map Math_round [dec 5 10; dec 25 10; dec (-5) 10; dec (-15) 10;
                  dec (-2) 10; dec 49 100; of_Z 3]
  = [of_Z 1; of_Z 3; S754_zero true; of_Z (-1);
     S754_zero true; zero; of_Z 3].
Proof. vm_compute. reflexivity. Qed.

Example lit_thai : lit "หน้า 7" = [0x0E2B; 0x0E19; 0x0E49; 0x0E32; 0x20; 0x37]%N.
Proof. vm_compute. reflexivity. Qed.

Example lit_astral : lit "😀" = [0xD83D; 0xDE00]%N.
Proof. vm_compute. reflexivity. Qed.

Example of_N_values : of_N 0 = lit "0" /\ of_N 1205 = lit "1205".
Proof. vm_compute. split; reflexivity. Qed.

Example trim_both_ends : trim (lit "  two words
 ") = lit "two words".
Proof. vm_compute. reflexivity. Qed.

(** Scenario A of the specification: two passages scored 0.9 and 0.7. *)
Example confidence_scenario_A :
  QAService.calculateConfidence Scenario.two_passages = dec 8 10.
Proof. vm_compute. reflexivity. Qed.

(** A rejected completion, as [generateResponse] reports it. *)
Example generateResponse_429 :
  fst (GroqService.generateResponse Scenario.completion_refuses []
         (Groq.mkOptions None None None) Scenario.empty_world)
  = inl (Error (lit "ไม่สามารถเชื่อมต่อกับ AI ได้: Groq API error: 429 - Rate limit reached")).
Proof. vm_compute. reflexivity. Qed.

(* ===================================================================== *)
(** ** Confidence *)
(* ===================================================================== *)


Section Confidence.

Import QAService.

(** The function [reduce] is given in [calculateConfidence]. *)
Let step (sum : number) (chunk : Chunk.t) : number :=
  add sum (or_number (Chunk.similarity chunk) (dec 8 10)).

Lemma or_number_contribution (c : Chunk.t) :
  or_number (Chunk.similarity c) (dec 8 10) = Spec.contribution c.
Proof.
  unfold or_number, Spec.contribution, Spec.prior.
  destruct (Chunk.similarity c) as [[ | | | ]|]; reflexivity.
Qed.

Lemma or_number_without_zero_score (c : Chunk.t) :
  or_number (Chunk.similarity (Spec.without_zero_score c)) (dec 8 10)
  = or_number (Chunk.similarity c) (dec 8 10).
Proof.
  unfold Spec.without_zero_score.
  destruct (Chunk.similarity c) as [[ | | | ]|] eqn:Hs; simpl;
    rewrite ?Hs; reflexivity.
Qed.

Lemma reduce_contributions (chunks : list Chunk.t) (acc : number) :
  fold_left step chunks acc
  = fold_left add (map Spec.contribution chunks) acc.
Proof.
  revert acc.
  induction chunks as [|c chunks IH]; intros acc; [reflexivity|].
  cbn [fold_left map]. rewrite <- IH. unfold step at 2.
  now rewrite or_number_contribution.
Qed.

Lemma reduce_without_zero_score (chunks : list Chunk.t) (acc : number) :
  fold_left step (map Spec.without_zero_score chunks) acc
  = fold_left step chunks acc.
Proof.
  revert acc.
  induction chunks as [|c chunks IH]; intros acc; [reflexivity|].
  cbn [fold_left map]. rewrite IH. unfold step at 2 4.
  now rewrite or_number_without_zero_score.
Qed.

Lemma calculateConfidence_cons (c : Chunk.t) (chunks : list Chunk.t) :
  calculateConfidence (c :: chunks)
  = Spec.round2
      (div (fold_left step (c :: chunks) zero)
           (of_nat (length (c :: chunks)))).
Proof. reflexivity. Qed.

Lemma calculateConfidence_spec (chunks : list Chunk.t) :
  calculateConfidence chunks = Spec.confidence chunks.
Proof.
  destruct chunks as [|c chunks]; [reflexivity|].
  rewrite calculateConfidence_cons, reduce_contributions.
  unfold Spec.confidence, Spec.mean. now rewrite length_map.
Qed.

Lemma calculateConfidence_without_zero_score (chunks : list Chunk.t) :
  calculateConfidence chunks
  = calculateConfidence (map Spec.without_zero_score chunks).
Proof.
  destruct chunks as [|c chunks]; [reflexivity|].
  change (map Spec.without_zero_score (c :: chunks))
    with (Spec.without_zero_score c :: map Spec.without_zero_score chunks).
  rewrite !calculateConfidence_cons.
  change (Spec.without_zero_score c :: map Spec.without_zero_score chunks)
    with (map Spec.without_zero_score (c :: chunks)).
  now rewrite reduce_without_zero_score, length_map.
Qed.

End Confidence.

(** C1, as the specification words it, fails on a passage whose score is
    there and is [0]: the mean of the scores is [0], the code answers
    [0.8]. *)
Lemma C1_zero_score_counterexample :
  QAService.calculateConfidence [Scenario.scored_zero] = dec 8 10
  /\ Spec.confidence_as_written [Scenario.scored_zero] = zero
  /\ QAService.calculateConfidence [Scenario.scored_zero]
     <> Spec.confidence_as_written [Scenario.scored_zero].
Proof. vm_compute. repeat split; discriminate. Qed.

(** C1, amended: [calculateConfidence] is [0] on the empty list and
    otherwise the mean of the contributions rounded to two decimals, a
    passage contributing its score, or [0.8] when the score is missing,
    zero or NaN; [confidence([]) = 0],
    [confidence([0.4, 0.8]) = 0.6] and [confidence([missing]) = 0.8]. *)
Theorem C1_confidence_is_rounded_mean :
  (forall chunks : list Chunk.t,
      QAService.calculateConfidence chunks = Spec.confidence chunks)
  /\ QAService.calculateConfidence [] = zero
  /\ QAService.calculateConfidence [Scenario.scored 4 10; Scenario.scored 8 10]
     = dec 6 10
  /\ QAService.calculateConfidence [Scenario.unscored] = dec 8 10.
Proof.
  split; [exact calculateConfidence_spec|].
  repeat split; vm_compute; reflexivity.
Qed.

(** C10: a score that is there and is exactly [0] (of either sign) counts
    as a missing one, in [calculateConfidence] and in the [confidence] of
    the response's sources; a single passage scored [0] has confidence
    [0.8]. *)
Theorem C10_zero_score_counts_as_missing :
  (forall chunks : list Chunk.t,
      QAService.calculateConfidence chunks
      = QAService.calculateConfidence (map Spec.without_zero_score chunks))
  /\ (forall c : Chunk.t,
        Source.confidence (QAService.formatSource c)
        = Source.confidence (QAService.formatSource (Spec.without_zero_score c)))
  /\ (forall (text : jsstring) (page : N) (md : option ChunkMetadata.t)
             (sign : bool),
        let c := Chunk.mk text page md (Some (S754_zero sign)) in
        Source.confidence (QAService.formatSource c) = dec 8 10
        /\ QAService.calculateConfidence [c] = dec 8 10).
Proof.
  split; [exact calculateConfidence_without_zero_score|].
  split.
  - intros c. cbn [QAService.formatSource Source.confidence].
    symmetry. apply or_number_without_zero_score.
  - intros text page md sign c. split; [reflexivity|].
    subst c. vm_compute. reflexivity.
Qed.

(* ===================================================================== *)
(** ** Context assembly *)
(* ===================================================================== *)

Lemma contextPart_block (index : nat) (chunk : Chunk.t) :
  QAService.contextPart index chunk = Spec.block (N.of_nat (S index)) chunk.
Proof.
  unfold QAService.contextPart, Spec.block, Spec.header.
  rewrite Nat.add_1_r.
  change (lit "]
") with (lit "]" ++ Spec.newline).
  now rewrite <- !app_assoc.
Qed.

Lemma buildContext_nonempty (chunks : list Chunk.t) :
  chunks <> [] ->
  QAService.buildContext chunks
  = join QAService.SEPARATOR (imap QAService.contextPart chunks).
Proof.
  intros Hne. unfold QAService.buildContext.
  destruct chunks as [|c chunks]; [contradiction|].
  destruct (decide (length (c :: chunks) = 0)) as [H0|_]; [discriminate H0|].
  reflexivity.
Qed.

Lemma join_snoc (sep : jsstring) (parts : list jsstring) (p : jsstring) :
  parts <> [] -> join sep (parts ++ [p]) = join sep parts ++ sep ++ p.
Proof.
  induction parts as [|q parts IH]; [contradiction|]. intros _.
  destruct parts as [|q' parts]; [reflexivity|].
  change (join sep ((q :: q' :: parts) ++ [p]))
    with (q ++ sep ++ join sep ((q' :: parts) ++ [p])).
  rewrite IH by discriminate.
  change (join sep (q :: q' :: parts)) with (q ++ sep ++ join sep (q' :: parts)).
  now rewrite <- !app_assoc.
Qed.

Lemma buildContext_append (chunks : list Chunk.t) (chunk : Chunk.t) :
  chunks <> [] ->
  QAService.buildContext (chunks ++ [chunk])
  = QAService.buildContext chunks ++ QAService.SEPARATOR
    ++ Spec.block (N.of_nat (S (length chunks))) chunk.
Proof.
  intros Hne.
  rewrite buildContext_nonempty by (destruct chunks; discriminate).
  rewrite (buildContext_nonempty chunks Hne), imap_app.
  cbn [imap]. rewrite join_snoc.
  - rewrite Nat.add_0_r. now rewrite contextPart_block.
  - destruct chunks; [contradiction|discriminate].
Qed.

Lemma buildContext_single (chunk : Chunk.t) :
  QAService.buildContext [chunk] = Spec.block 1 chunk.
Proof.
  rewrite buildContext_nonempty by discriminate.
  cbn [imap join]. now rewrite contextPart_block.
Qed.

Lemma buildContext_separated (chunks : list Chunk.t) :
  chunks <> [] ->
  QAService.buildContext chunks
  = concat (imap (fun i chunk =>
                    match i with 0 => [] | S _ => QAService.SEPARATOR end
                    ++ Spec.block (N.of_nat (S i)) chunk) chunks).
Proof.
  induction chunks as [|chunk chunks IH] using rev_ind; [contradiction|].
  intros _. destruct (decide (chunks = [])) as [->|Hne].
  - cbn [app imap concat]. rewrite buildContext_single.
    now rewrite app_nil_r.
  - rewrite buildContext_append, IH by exact Hne.
    rewrite imap_app, concat_app. cbn [imap concat].
    rewrite Nat.add_0_r, app_nil_r.
    destruct chunks as [|c0 chunks]; [contradiction|reflexivity].
Qed.

(** C2: [buildContext] of the empty list is the fixed "no content"
    sentence.  Of a non-empty list it is the blocks of the passages one
    after the other, in the order given, every block but the first
    preceded by the separator; the [i]-th block is the header with the
    1-based index [i] and the passage's page number, a line break and the
    passage's content.  So one passage gives its block alone, and a
    passage more at the end adds the separator and its block.  The
    separator is a rule of three hyphens between blank lines.  The
    contexts of two passages, and of one passage on page 12, are written
    out. *)
Theorem C2_buildContext_blocks :
  QAService.buildContext [] = QAService.NO_CONTENT
  /\ (forall chunks : list Chunk.t,
        chunks <> [] ->
        QAService.buildContext chunks
        = concat (imap (fun i chunk =>
                          match i with 0 => [] | S _ => QAService.SEPARATOR end
                          ++ Spec.block (N.of_nat (S i)) chunk) chunks))
  /\ (forall chunk : Chunk.t,
        QAService.buildContext [chunk] = Spec.block 1 chunk)
  /\ (forall (chunks : list Chunk.t) (chunk : Chunk.t),
        chunks <> [] ->
        QAService.buildContext (chunks ++ [chunk])
        = QAService.buildContext chunks ++ QAService.SEPARATOR
          ++ Spec.block (N.of_nat (S (length chunks))) chunk)
  /\ QAService.SEPARATOR
     = Spec.newline ++ Spec.newline ++ concat (replicate 3 (lit "-"))
       ++ Spec.newline ++ Spec.newline
  /\ QAService.buildContext Scenario.two_passages
     = lit "[ส่วนที่ 1 - หน้า 7]
chlorophyll absorbs light

---

[ส่วนที่ 2 - หน้า 9]
the Calvin cycle fixes carbon"
  /\ QAService.buildContext [Scenario.unscored]
     = lit "[ส่วนที่ 1 - หน้า 12]
photosynthesis".
Proof.
  split; [reflexivity|].
  split; [exact buildContext_separated|].
  split; [exact buildContext_single|].
  split; [exact buildContext_append|].
  split; [reflexivity|].
  split; vm_compute; reflexivity.
Qed.

Lemma C2_buildContext_blocks_witness :
  QAService.buildContext Scenario.two_passages
  = Spec.block 1 (Scenario.passage "chlorophyll absorbs light" 7
                                   (Some (dec 9 10)))
    ++ QAService.SEPARATOR
    ++ Spec.block 2 (Scenario.passage "the Calvin cycle fixes carbon" 9
                                      (Some (dec 7 10)))
  /\ QAService.buildContext ([Scenario.scored_zero] ++ [Scenario.unscored])
     = QAService.buildContext [Scenario.scored_zero] ++ QAService.SEPARATOR
       ++ Spec.block 2 Scenario.unscored.
Proof.
  split.
  - rewrite (proj1 (proj2 C2_buildContext_blocks) Scenario.two_passages)
      by discriminate.
    cbn [Scenario.two_passages imap concat app N.of_nat Pos.of_succ_nat
         Pos.succ].
    now rewrite app_nil_r.
  - apply (proj1 (proj2 (proj2 (proj2 C2_buildContext_blocks)))
             [Scenario.scored_zero]).
    discriminate.
Defined.

(* ===================================================================== *)
(** ** Running the steps *)
(* ===================================================================== *)

(** Closes a goal [_ \/ exists cause, run = rejection with cause] by
    reading the cause off the console line of the run. *)
Ltac caught :=
  right;
  match goal with
  | |- context [LogThrown ?t] =>
      exists t; cbv beta iota delta [Run.groq_message]; reflexivity
  end.

Section Runs.

Context (E : Env).

Lemma sessionTitle_spec (question : jsstring) :
  (if decide (50 < length question)
   then substring0 50 question ++ lit "..."
   else question)
  = Spec.title_of question.
Proof.
  unfold Spec.title_of, substring0, Spec.ellipsis.
  destruct (decide (50 < length question)), (decide (length question <= 50));
    first [reflexivity | lia].
Qed.

Lemma createChatSession_run (userId bookId question : jsstring) (w : World) :
  QAService.createChatSession E userId bookId question w
  = match session_insert E w
            (SessionInsert.mk userId bookId (Spec.title_of question)) with
    | inl e =>
        (inl (Error (lit "Failed to create chat session: " ++ db_message e)), w)
    | inr new_id =>
        (inr new_id,
         mkWorld
           (chat_sessions w ++
              [SessionRow.mk new_id userId bookId (Spec.title_of question)
                 (clock w) (clock w)])
           (chat_messages w) (console w) (N.succ (clock w)))
    end.
Proof.
  unfold QAService.createChatSession. rewrite sessionTitle_spec.
  unfold bind, Store.insert_session.
  destruct (session_insert E w _); reflexivity.
Qed.

Lemma saveChatMessage_run (sid content : jsstring) (role : Role)
    (metadata : option Metadata.t) (w : World) :
  QAService.saveChatMessage E sid content role metadata w
  = (inr tt, Run.saved E (MessageInsert.mk sid content role metadata) w).
Proof.
  unfold QAService.saveChatMessage, Run.saved, bind, Store.insert_message.
  destruct (message_insert E w _); reflexivity.
Qed.

(** [generateResponse] resolves without touching the world, or rejects
    with one console line more. *)
Lemma generateResponse_run (messages : list Groq.Message)
    (options : Groq.Options) (w : World) :
  (exists text, GroqService.generateResponse E messages options w = (inr text, w))
  \/ (exists cause,
        GroqService.generateResponse E messages options w
        = (inl (Error (Run.groq_message cause)),
           log_line (lit "Error calling Groq API:") (LogThrown cause) w)).
Proof.
  unfold GroqService.generateResponse, try_catch, bind, get_world, settle,
    throw, ret, console_error.
  destruct (fetch E w _) as [t|response]; [caught|].
  destruct (Groq.ok response); cbn [negb].
  - destruct (Groq.json response) as [t|data]; [caught|].
    destruct (Groq.choices data) as [[|first rest]|]; [caught| |caught].
    left. now eexists.
  - caught.
Qed.

(** A reply that is not [ok] surfaces, inside the service, with the
    upstream status and message in the error's text. *)
Lemma generateResponse_not_ok (messages : list Groq.Message)
    (options : Groq.Options) (w : World) (response : Groq.Response)
    (body : Groq.Body) :
  fetch E w
    (Groq.mkRequest (default GroqService.DEFAULT_MODEL (Groq.model options))
       messages (default (dec 3 10) (Groq.temperature options))
       (default 1000%N (Groq.maxTokens options)))
  = inr response ->
  Groq.ok response = false ->
  Groq.json response = inr body ->
  let upstream :=
    Error (lit "Groq API error: " ++ of_N (Groq.status response) ++ lit " - "
           ++ or_string (Groq.error_message body) (Groq.statusText response)) in
  GroqService.generateResponse E messages options w
  = (inl (Error (Run.groq_message upstream)),
     log_line (lit "Error calling Groq API:") (LogThrown upstream) w).
Proof.
  intros Hfetch Hok Hjson upstream.
  unfold GroqService.generateResponse, try_catch, bind, get_world, settle,
    throw, ret, console_error.
  rewrite Hfetch, Hok, Hjson. reflexivity.
Qed.

Lemma generateContextualAnswer_run (question context : jsstring)
    (chunks : list Chunk.t) (w : World) :
  (exists answer,
      QAService.generateContextualAnswer E question context chunks w
      = (inr answer, w))
  \/ (exists cause,
        QAService.generateContextualAnswer E question context chunks w
        = (inl (Error (Run.groq_message cause)),
           log_line (lit "Error calling Groq API:") (LogThrown cause) w)).
Proof. unfold QAService.generateContextualAnswer. apply generateResponse_run. Qed.

(** [processQuestion], step by step. *)
Lemma processQuestion_run (request : QARequest.t) (w : World) :
  QAService.processQuestion E request w
  = match searchSimilarContent E w (QARequest.question request)
            (QARequest.bookId request) 5%N with
    | inl cause => Run.rejected cause w
    | inr chunks =>
        match QAService.resolveSession E request w with
        | (inl cause, w1) => Run.rejected cause w1
        | (inr sid, w1) =>
            match QAService.generateContextualAnswer E
                    (QARequest.question request)
                    (QAService.buildContext chunks) chunks w1 with
            | (inl cause, w2) => Run.rejected cause w2
            | (inr answer, w2) =>
                (inr (QAResponse.mk answer
                        (map QAService.formatSource chunks) sid),
                 Run.saved E (Run.assistant_insert sid answer chunks)
                   (Run.saved E
                      (Run.user_insert sid (QARequest.question request)) w2))
            end
        end
    end.
Proof.
  unfold QAService.processQuestion, try_catch.
  unfold bind at 1. unfold get_world at 1. cbv beta iota.
  unfold bind at 1. unfold settle at 1.
  destruct (searchSimilarContent E w _ _ _) as [cause|chunks]; [reflexivity|].
  unfold bind at 1.
  destruct (QAService.resolveSession E request w) as [[cause|sid] w1];
    [reflexivity|].
  unfold bind at 1.
  destruct (QAService.generateContextualAnswer E _ _ chunks w1)
    as [[cause|answer] w2]; [reflexivity|].
  unfold bind. rewrite !saveChatMessage_run. reflexivity.
Qed.

(** Which steps touch which table. *)
Lemma resolveSession_messages (request : QARequest.t) (w w1 : World)
    (r : Thrown + jsstring) :
  QAService.resolveSession E request w = (r, w1) ->
  chat_messages w1 = chat_messages w.
Proof.
  unfold QAService.resolveSession.
  destruct (QARequest.sessionId request) as [[|c sid]|]; cbn [JsString.truthy];
    rewrite ?createChatSession_run; unfold ret;
    try (destruct (session_insert E w _));
    intros [= <- <-]; reflexivity.
Qed.

Lemma generateContextualAnswer_tables (question context : jsstring)
    (chunks : list Chunk.t) (w w' : World) (r : Thrown + jsstring) :
  QAService.generateContextualAnswer E question context chunks w = (r, w') ->
  chat_sessions w' = chat_sessions w
  /\ chat_messages w' = chat_messages w
  /\ clock w' = clock w.
Proof.
  destruct (generateContextualAnswer_run question context chunks w)
    as [[answer ->]|[cause ->]]; intros [= <- <-]; auto.
Qed.

Lemma saved_sessions (row : MessageInsert.t) (w : World) :
  chat_sessions (Run.saved E row w) = chat_sessions w.
Proof. unfold Run.saved. destruct (message_insert E w row); reflexivity. Qed.

Lemma saved_rejected (row : MessageInsert.t) (w : World) (e : DbError) :
  message_insert E w row = Some e ->
  Run.saved E row w = log_line (lit "Error saving chat message:") (LogDb e) w.
Proof. unfold Run.saved. now intros ->. Qed.

Lemma saved_accepted (row : MessageInsert.t) (w : World) :
  message_insert E w row = None ->
  Run.saved E row w
  = mkWorld (chat_sessions w) (chat_messages w ++ [Run.stamped row (clock w)])
            (console w) (N.succ (clock w)).
Proof. unfold Run.saved. now intros ->. Qed.

(** Whatever the store answers, a save appends at most its own row. *)
Lemma saved_messages (row : MessageInsert.t) (w : World) :
  chat_messages (Run.saved E row w) = chat_messages w
  \/ chat_messages (Run.saved E row w)
     = chat_messages w ++ [Run.stamped row (clock w)].
Proof.
  unfold Run.saved. destruct (message_insert E w row); [left|right]; reflexivity.
Qed.

End Runs.

(* ===================================================================== *)
(** ** Failures of [processQuestion] *)
(* ===================================================================== *)

Lemma saved_console (E : Env) (row : MessageInsert.t) (w : World)
    (line : jsstring * Logged) :
  In line (console w) -> In line (console (Run.saved E row w)).
Proof.
  unfold Run.saved. destruct (message_insert E w row); cbn; [|easy].
  intros Hin. apply in_or_app. now left.
Qed.

Lemma saved_messages_kept (E : Env) (row : MessageInsert.t) (w : World) :
  chat_messages (Run.saved E row w) = chat_messages w ++ Run.kept E row w.
Proof.
  unfold Run.saved, Run.kept.
  destruct (message_insert E w row); cbn; [now rewrite app_nil_r|reflexivity].
Qed.

(** Every rejection of [processQuestion] carries the fixed message. *)
Lemma processQuestion_rejects_fixed (E : Env) (request : QARequest.t)
    (w w' : World) (t : Thrown) :
  QAService.processQuestion E request w = (inl t, w') ->
  t = Error QAService.PROCESSING_ERROR.
Proof.
  rewrite processQuestion_run. unfold Run.rejected.
  destruct (searchSimilarContent E w _ _ _) as [cause|chunks];
    [now intros [= <- _]|].
  destruct (QAService.resolveSession E request w) as [[cause|sid] w1];
    [now intros [= <- _]|].
  destruct (QAService.generateContextualAnswer E _ _ chunks w1)
    as [[cause|answer] w2]; [now intros [= <- _]|discriminate].
Qed.

Lemma has_unit_In (c : code_unit) (s : jsstring) :
  Spec.has_unit c s = true <-> In c s.
Proof.
  unfold Spec.has_unit. rewrite existsb_exists. split.
  - intros (x & Hin & Heq). apply N.eqb_eq in Heq. now subst.
  - intros Hin. exists c. split; [exact Hin|apply N.eqb_refl].
Qed.

Lemma occurs_in_units (needle hay : jsstring) (c : code_unit) :
  Spec.occurs_in needle hay -> In c needle -> In c hay.
Proof.
  intros (before & after & ->) Hin.
  apply in_or_app. right. apply in_or_app. now left.
Qed.

(** The text of an error thrown by [generateResponse] does not occur in
    the fixed message, whatever it wraps: it begins with a letter, or
    holds one, that the fixed message does not have. *)
Lemma groq_message_not_echoed (upstream : Thrown) :
  ~ Spec.occurs_in (Run.groq_message upstream) QAService.PROCESSING_ERROR.
Proof.
  intros Hocc.
  assert (Hnone : forall c,
             In c (Run.groq_message upstream) ->
             Spec.has_unit c QAService.PROCESSING_ERROR = false -> False).
  { intros c Hin Hno.
    apply (occurs_in_units _ _ c Hocc), has_unit_In in Hin. congruence. }
  destruct upstream as [message|value]; cbn [Run.groq_message] in Hnone.
  - apply (Hnone 0x0E44%N); [|vm_compute; reflexivity].
    apply in_or_app. left. apply has_unit_In. vm_compute. reflexivity.
  - apply (Hnone 0x41%N); [|vm_compute; reflexivity].
    apply has_unit_In. vm_compute. reflexivity.
Qed.

(** C3: when retrieval, the creation of the session or the generation of
    the answer throws [cause], [processQuestion] rejects with the one
    fixed message, whatever [cause] is; [cause] goes to the console and
    nowhere else, and the text of an error of the completion client,
    whatever upstream message it wraps, does not occur in the fixed
    message. *)
Theorem C3_failure_is_one_fixed_message (E : Env) (request : QARequest.t)
    (w w1 : World) (cause : Thrown) :
  Run.StepFails E request w cause w1 ->
  QAService.processQuestion E request w
  = (inl (Error QAService.PROCESSING_ERROR),
     log_line (lit "Error processing question:") (LogThrown cause) w1)
  /\ forall upstream : Thrown,
       cause = Error (Run.groq_message upstream) ->
       ~ Spec.occurs_in (Run.groq_message upstream) QAService.PROCESSING_ERROR.
Proof.
  intros Hfails. split; [|intros upstream _; apply groq_message_not_echoed].
  destruct Hfails as [cause' Hsearch
                     |chunks cause' w1' Hsearch Hsession
                     |chunks sid w1' cause' w2 Hsearch Hsession Hanswer];
    rewrite processQuestion_run, Hsearch; [reflexivity| |];
    rewrite Hsession; [reflexivity|].
  now rewrite Hanswer.
Qed.

Lemma C3_failure_is_one_fixed_message_witness :
  fst (QAService.processQuestion Scenario.completion_refuses
         Scenario.first_question Scenario.empty_world)
  = inl (Error QAService.PROCESSING_ERROR)
  /\ ~ Spec.occurs_in
         (lit "ไม่สามารถเชื่อมต่อกับ AI ได้: Groq API error: 429 - Rate limit reached")
         QAService.PROCESSING_ERROR
  /\ fst (QAService.processQuestion Scenario.retrieval_throws
            Scenario.first_question Scenario.empty_world)
     = inl (Error QAService.PROCESSING_ERROR).
Proof.
  assert (Hgen : Run.StepFails Scenario.completion_refuses
                   Scenario.first_question Scenario.empty_world
                   (Error (Run.groq_message
                             (Error (lit "Groq API error: 429 - Rate limit reached"))))
                   (log_line (lit "Error calling Groq API:")
                      (LogThrown
                         (Error (lit "Groq API error: 429 - Rate limit reached")))
                      (mkWorld
                         [SessionRow.mk (lit "session-1") (lit "u1") (lit "doc1")
                            (lit "What is photosynthesis?") 0 0] [] [] 1))).
  { eapply Run.generation_fails; vm_compute; reflexivity. }
  destruct (C3_failure_is_one_fixed_message _ _ _ _ _ Hgen) as [Hrun Hhidden].
  split; [now rewrite Hrun|]. split.
  - intros Hocc. apply (Hhidden _ eq_refl).
    destruct Hocc as (before & after & Heq). exists before, after.
    rewrite Heq. vm_compute. reflexivity.
  - assert (Hret : Run.StepFails Scenario.retrieval_throws
                     Scenario.first_question Scenario.empty_world
                     (Error (lit "embedding service unreachable"))
                     Scenario.empty_world).
    { apply Run.retrieval_fails. reflexivity. }
    now rewrite (proj1 (C3_failure_is_one_fixed_message _ _ _ _ _ Hret)).
Defined.

(** C4: when retrieval, the session and the answer are there,
    [processQuestion] resolves with the answer and the session's
    identifier whatever the store says to the two message inserts; an
    insert it turns down leaves a console line and nothing else. *)
Theorem C4_rejected_insert_is_swallowed (E : Env) (request : QARequest.t)
    (w w1 w2 : World) (chunks : list Chunk.t) (sid answer : jsstring) :
  searchSimilarContent E w (QARequest.question request)
    (QARequest.bookId request) 5%N = inr chunks ->
  QAService.resolveSession E request w = (inr sid, w1) ->
  QAService.generateContextualAnswer E (QARequest.question request)
    (QAService.buildContext chunks) chunks w1 = (inr answer, w2) ->
  let u := Run.user_insert sid (QARequest.question request) in
  let a := Run.assistant_insert sid answer chunks in
  exists w' : World,
    QAService.processQuestion E request w
    = (inr (QAResponse.mk answer (map QAService.formatSource chunks) sid), w')
    /\ (forall e : DbError,
          message_insert E w2 u = Some e ->
          In (lit "Error saving chat message:", LogDb e) (console w')
          /\ Run.kept E u w2 = [])
    /\ (forall e : DbError,
          message_insert E (Run.saved E u w2) a = Some e ->
          In (lit "Error saving chat message:", LogDb e) (console w')
          /\ Run.kept E a (Run.saved E u w2) = [])
    /\ chat_messages w'
       = chat_messages w2 ++ Run.kept E u w2 ++ Run.kept E a (Run.saved E u w2).
Proof.
  intros Hsearch Hsession Hanswer u a.
  exists (Run.saved E a (Run.saved E u w2)).
  split; [|split; [|split]].
  - rewrite processQuestion_run, Hsearch, Hsession, Hanswer. reflexivity.
  - intros e He. split.
    + apply saved_console. rewrite (saved_rejected E u w2 e He).
      cbn. apply in_or_app. right. now left.
    + unfold Run.kept. now rewrite He.
  - intros e He. split.
    + rewrite (saved_rejected E a _ e He).
      cbn. apply in_or_app. right. now left.
    + unfold Run.kept. now rewrite He.
  - now rewrite !saved_messages_kept, <- app_assoc.
Qed.

Lemma C4_rejected_insert_is_swallowed_witness :
  exists w' : World,
    QAService.processQuestion Scenario.messages_rejected
      Scenario.first_question Scenario.empty_world
    = (inr (QAResponse.mk (lit "Plants make sugar from light.")
              (map QAService.formatSource Scenario.two_passages)
              (lit "session-1")), w')
    /\ In (lit "Error saving chat message:", LogDb Scenario.store_down)
          (console w')
    /\ chat_messages w' = [].
Proof.
  destruct (C4_rejected_insert_is_swallowed Scenario.messages_rejected
              Scenario.first_question Scenario.empty_world
              (mkWorld
                 [SessionRow.mk (lit "session-1") (lit "u1") (lit "doc1")
                    (lit "What is photosynthesis?") 0 0] [] [] 1)
              (mkWorld
                 [SessionRow.mk (lit "session-1") (lit "u1") (lit "doc1")
                    (lit "What is photosynthesis?") 0 0] [] [] 1)
              Scenario.two_passages (lit "session-1")
              (lit "Plants make sugar from light."))
    as (w' & Hrun & Huser & _ & Hmessages);
    [vm_compute; reflexivity ..|].
  exists w'. split; [exact Hrun|]. split.
  - apply (Huser Scenario.store_down). reflexivity.
  - rewrite Hmessages. reflexivity.
Defined.

(* ===================================================================== *)
(** ** Sessions and history *)
(* ===================================================================== *)

Section Sessions.

Context (E : Env).

Lemma resolveSession_present (request : QARequest.t) (sid : jsstring) (w : World) :
  QARequest.sessionId request = Some sid ->
  sid <> [] ->
  QAService.resolveSession E request w = (inr sid, w).
Proof.
  intros Hsid Hne. unfold QAService.resolveSession. rewrite Hsid.
  destruct sid; [contradiction|reflexivity].
Qed.

Lemma resolveSession_absent (request : QARequest.t) (w : World) :
  QARequest.sessionId request = None \/ QARequest.sessionId request = Some [] ->
  QAService.resolveSession E request w
  = QAService.createChatSession E (QARequest.userId request)
      (QARequest.bookId request) (QARequest.question request) w.
Proof.
  unfold QAService.resolveSession. now intros [-> | ->].
Qed.

(** The tables after a run, in terms of the tables after step 2. *)
Lemma processQuestion_sessions (request : QARequest.t) (w w' : World)
    (r : Thrown + QAResponse.t) :
  QAService.processQuestion E request w = (r, w') ->
  chat_sessions w' = chat_sessions w
  \/ exists (sid : jsstring) (w1 : World),
       QAService.resolveSession E request w = (inr sid, w1)
       /\ chat_sessions w' = chat_sessions w1
       /\ forall res, r = inr res -> QAResponse.sessionId res = sid.
Proof.
  rewrite processQuestion_run. unfold Run.rejected.
  destruct (searchSimilarContent E w _ _ _) as [cause|chunks];
    [intros [= <- <-]; now left|].
  destruct (QAService.resolveSession E request w) as [[cause|sid] w1] eqn:Hs.
  - intros [= <- <-]. left. cbn.
    revert Hs. unfold QAService.resolveSession.
    destruct (QARequest.sessionId request) as [[|c s]|]; cbn [JsString.truthy];
      rewrite ?createChatSession_run; unfold ret;
      try (destruct (session_insert E w _));
      intros [= <- <-]; reflexivity.
  - destruct (QAService.generateContextualAnswer E _ _ chunks w1)
      as [[cause|answer] w2] eqn:Ha;
      apply generateContextualAnswer_tables in Ha as (Hses & _ & _);
      intros [= <- <-]; right; exists sid, w1; (split; [reflexivity|]).
    + split; [exact Hses|discriminate].
    + rewrite !saved_sessions. split; [exact Hses|].
      now intros res [= <-].
Qed.

End Sessions.

(** C5, as the specification words it, fails on a request whose
    [sessionId] is there and is the empty string: a session is created and
    its identifier, not the empty string, is returned. *)
Lemma C5_empty_session_id_counterexample :
  QARequest.sessionId Scenario.empty_session_id = Some []
  /\ exists (res : QAResponse.t) (w' : World),
       QAService.processQuestion Scenario.all_well Scenario.empty_session_id
         Scenario.empty_world = (inr res, w')
       /\ QAResponse.sessionId res = lit "session-1"
       /\ QAResponse.sessionId res <> []
       /\ length (chat_sessions w') = 1
       /\ chat_sessions w' <> chat_sessions Scenario.empty_world.
Proof.
  split; [reflexivity|]. eexists. eexists.
  split; [vm_compute; reflexivity|].
  repeat split; vm_compute; discriminate.
Qed.

(** C5, amended: a request whose [sessionId] is there and is not the empty
    string keeps it: step 2 returns it without touching the world, no
    session is created by the call, and a response carries it.  A request
    whose [sessionId] is missing or empty gets a new session, titled from
    the question, whose identifier the response carries. *)
Theorem C5_session_reused_or_created (E : Env) (request : QARequest.t)
    (w w' : World) (r : Thrown + QAResponse.t) :
  QAService.processQuestion E request w = (r, w') ->
  (forall sid : jsstring,
      QARequest.sessionId request = Some sid ->
      sid <> [] ->
      QAService.resolveSession E request w = (inr sid, w)
      /\ chat_sessions w' = chat_sessions w
      /\ forall res, r = inr res -> QAResponse.sessionId res = sid)
  /\ (QARequest.sessionId request = None
      \/ QARequest.sessionId request = Some [] ->
      forall res, r = inr res ->
      exists stamp : N,
        chat_sessions w'
        = chat_sessions w ++
            [SessionRow.mk (QAResponse.sessionId res)
               (QARequest.userId request) (QARequest.bookId request)
               (Spec.title_of (QARequest.question request)) stamp stamp]).
Proof.
  intros Hrun. split.
  - intros sid Hsid Hne.
    pose proof (resolveSession_present E request sid w Hsid Hne) as Hres.
    split; [exact Hres|].
    destruct (processQuestion_sessions E request w w' r Hrun)
      as [Hsame|(sid' & w1 & Hres' & Hses & Hid)].
    + split; [exact Hsame|].
      intros res ->. revert Hrun.
      rewrite processQuestion_run, Hres. unfold Run.rejected.
      destruct (searchSimilarContent E w _ _ _); [discriminate|].
      destruct (QAService.generateContextualAnswer E _ _ _ w)
        as [[?|?] ?]; [discriminate|].
      now intros [= <- _].
    + rewrite Hres in Hres'. injection Hres' as <- <-. now split.
  - intros Habsent res ->.
    destruct (processQuestion_sessions E request w w' _ Hrun)
      as [Hsame|(sid & w1 & Hres & Hses & Hid)].
    + exfalso. revert Hrun.
      rewrite processQuestion_run, (resolveSession_absent E request w Habsent),
        createChatSession_run.
      unfold Run.rejected.
      destruct (searchSimilarContent E w _ _ _); [discriminate|].
      destruct (session_insert E w _) as [e|new_id]; [discriminate|].
      destruct (QAService.generateContextualAnswer E _ _ _ _)
        as [[?|?] w2] eqn:Ha; [discriminate|].
      apply generateContextualAnswer_tables in Ha as (Hses & _ & _).
      intros [= _ <-]. rewrite !saved_sessions, Hses in Hsame.
      cbn in Hsame. symmetry in Hsame.
      apply (f_equal (@length _)) in Hsame.
      rewrite length_app in Hsame. cbn in Hsame. lia.
    + rewrite (Hid res eq_refl), Hses.
      rewrite (resolveSession_absent E request w Habsent),
        createChatSession_run in Hres.
      destruct (session_insert E w _) as [e|new_id]; [discriminate|].
      injection Hres as <- <-. now exists (clock w).
Qed.

Lemma C5_session_reused_or_created_witness :
  (exists (res : QAResponse.t) (w' : World),
      QAService.processQuestion Scenario.all_well Scenario.follow_up
        Scenario.empty_world = (inr res, w')
      /\ chat_sessions w' = []
      /\ QAResponse.sessionId res = lit "session-7")
  /\ (exists (res : QAResponse.t) (w' : World) (stamp : N),
        QAService.processQuestion Scenario.all_well Scenario.first_question
          Scenario.empty_world = (inr res, w')
        /\ chat_sessions w'
           = [SessionRow.mk (QAResponse.sessionId res) (lit "u1") (lit "doc1")
                (lit "What is photosynthesis?") stamp stamp]).
Proof.
  split.
  - destruct (QAService.processQuestion Scenario.all_well Scenario.follow_up
                Scenario.empty_world) as [r w'] eqn:Hrun.
    destruct (C5_session_reused_or_created _ _ _ _ _ Hrun) as [Hreuse _].
    destruct (Hreuse (lit "session-7") eq_refl ltac:(discriminate))
      as (_ & Hsessions & Hid).
    assert (Hr : exists res, r = inr res).
    { revert Hrun. vm_compute. intros [= <- _]. eexists. reflexivity. }
    destruct Hr as [res ->].
    exists res, w'. repeat split; [exact Hsessions|now apply Hid].
  - destruct (QAService.processQuestion Scenario.all_well
                Scenario.first_question Scenario.empty_world)
      as [r w'] eqn:Hrun.
    destruct (C5_session_reused_or_created _ _ _ _ _ Hrun) as [_ Hcreate].
    assert (Hr : exists res, r = inr res).
    { revert Hrun. vm_compute. intros [= <- _]. eexists. reflexivity. }
    destruct Hr as [res ->].
    destruct (Hcreate (or_introl eq_refl) res eq_refl) as [stamp Hrow].
    exists res, w', stamp. split; [reflexivity|exact Hrow].
Defined.

(** C6, as the specification words it, fails when the store turns the
    user message down and takes the assistant message: the call succeeds,
    one message is appended, and it is an assistant reply with no
    question before it. *)
Lemma C6_user_insert_rejected_counterexample :
  exists (res : QAResponse.t) (w' : World),
    QAService.processQuestion Scenario.user_insert_rejected
      Scenario.first_question Scenario.empty_world = (inr res, w')
    /\ chat_messages w'
       = chat_messages Scenario.empty_world ++
           [Spec.assistant_row (lit "session-1")
              (lit "Plants make sugar from light.") Scenario.two_passages 1]
    /\ length (chat_messages w')
       <> length (chat_messages Scenario.empty_world) + 2.
Proof.
  eexists. eexists. split; [vm_compute; reflexivity|].
  split; [vm_compute; reflexivity|]. vm_compute. discriminate.
Qed.

(** C6, amended: in a successful call the two inserts are made one after
    the other, the user message first; when the store takes both, exactly
    two messages are appended to the session's history, the question with
    role [user] and then the answer with role [assistant], the first
    stamped before the second, and the world between the two writes holds
    the question without the answer. *)
Theorem C6_two_messages_in_order (E : Env) (request : QARequest.t)
    (w w1 w2 : World) (chunks : list Chunk.t) (sid answer : jsstring) :
  searchSimilarContent E w (QARequest.question request)
    (QARequest.bookId request) 5%N = inr chunks ->
  QAService.resolveSession E request w = (inr sid, w1) ->
  QAService.generateContextualAnswer E (QARequest.question request)
    (QAService.buildContext chunks) chunks w1 = (inr answer, w2) ->
  let u := Run.user_insert sid (QARequest.question request) in
  let a := Run.assistant_insert sid answer chunks in
  message_insert E w2 u = None ->
  message_insert E (Run.saved E u w2) a = None ->
  let asked := Spec.user_row sid (QARequest.question request) (clock w2) in
  let answered := Spec.assistant_row sid answer chunks (N.succ (clock w2)) in
  exists w' : World,
    QAService.processQuestion E request w
    = (inr (QAResponse.mk answer (map QAService.formatSource chunks) sid), w')
    /\ chat_messages (Run.saved E u w2) = chat_messages w ++ [asked]
    /\ chat_messages w' = chat_messages w ++ [asked; answered]
    /\ (MessageRow.created_at asked < MessageRow.created_at answered)%N.
Proof.
  intros Hsearch Hsession Hanswer u a Hu Ha asked answered.
  exists (Run.saved E a (Run.saved E u w2)).
  pose proof (resolveSession_messages E request w w1 _ Hsession) as Hm1.
  apply generateContextualAnswer_tables in Hanswer as Hframe.
  destruct Hframe as (_ & Hm2 & _).
  split; [|split; [|split]].
  - rewrite processQuestion_run, Hsearch, Hsession, Hanswer. reflexivity.
  - rewrite (saved_accepted E u w2 Hu). cbn. now rewrite Hm2, Hm1.
  - rewrite (saved_accepted E a _ Ha), (saved_accepted E u w2 Hu). cbn.
    rewrite Hm2, Hm1, <- app_assoc. reflexivity.
  - cbn. lia.
Qed.

Lemma C6_two_messages_in_order_witness :
  exists w' : World,
    QAService.processQuestion Scenario.all_well Scenario.first_question
      Scenario.empty_world
    = (inr (QAResponse.mk (lit "Plants make sugar from light.")
              (map QAService.formatSource Scenario.two_passages)
              (lit "session-1")), w')
    /\ chat_messages w'
       = [Spec.user_row (lit "session-1") (lit "What is photosynthesis?") 1;
          Spec.assistant_row (lit "session-1")
            (lit "Plants make sugar from light.") Scenario.two_passages 2].
Proof.
  destruct (C6_two_messages_in_order Scenario.all_well
              Scenario.first_question Scenario.empty_world
              (mkWorld
                 [SessionRow.mk (lit "session-1") (lit "u1") (lit "doc1")
                    (lit "What is photosynthesis?") 0 0] [] [] 1)
              (mkWorld
                 [SessionRow.mk (lit "session-1") (lit "u1") (lit "doc1")
                    (lit "What is photosynthesis?") 0 0] [] [] 1)
              Scenario.two_passages (lit "session-1")
              (lit "Plants make sugar from light."))
    as (w' & Hrun & _ & Hmessages & _);
    [vm_compute; reflexivity ..|].
  exists w'. split; [exact Hrun|exact Hmessages].
Defined.





(** C8: the session [createChatSession] opens is titled with the question
    itself when that has at most 50 code units, and with its first 50 code
    units followed by ["..."] when it has more. *)
Theorem C8_session_title (E : Env) (userId bookId question new_id : jsstring)
    (w w' : World) :
  QAService.createChatSession E userId bookId question w = (inr new_id, w') ->
  exists row : SessionRow.t,
    chat_sessions w' = chat_sessions w ++ [row]
    /\ SessionRow.id row = new_id
    /\ SessionRow.title row = Spec.title_of question
    /\ (length question <= 50 -> SessionRow.title row = question)
    /\ (50 < length question ->
        SessionRow.title row = take 50 question ++ Spec.ellipsis
        /\ length (take 50 question) = 50).
Proof.
  rewrite createChatSession_run.
  destruct (session_insert E w _) as [e|id]; [discriminate|].
  intros [= <- <-]. eexists. split; [reflexivity|].
  cbn [SessionRow.id SessionRow.title]. split; [reflexivity|].
  split; [reflexivity|]. unfold Spec.title_of.
  split; intros Hlen; destruct (decide (length question <= 50));
    try lia; [reflexivity|].
  split; [reflexivity|]. rewrite length_take. lia.
Qed.

Lemma C8_session_title_witness :
  exists row : SessionRow.t,
    chat_sessions
      (snd (QAService.createChatSession Scenario.all_well (lit "u1")
              (lit "doc1") Scenario.long_question Scenario.empty_world))
    = [row]
    /\ SessionRow.title row
       = lit "Why do the leaves of deciduous trees change colour..."
    /\ length (SessionRow.title row) = 53.
Proof.
  destruct (C8_session_title Scenario.all_well (lit "u1") (lit "doc1")
              Scenario.long_question (lit "session-1") Scenario.empty_world
              (snd (QAService.createChatSession Scenario.all_well (lit "u1")
                      (lit "doc1") Scenario.long_question
                      Scenario.empty_world)))
    as (row & Hrows & _ & _ & _ & Hlong); [vm_compute; reflexivity|].
  destruct Hlong as [Htitle _]; [vm_compute; lia|].
  exists row. split; [exact Hrows|]. rewrite Htitle.
  split; vm_compute; reflexivity.
Defined.

(* ===================================================================== *)
(** ** Reading the history *)
(* ===================================================================== *)

Section Orders.

Context {A : Type} (key : A -> N).

#[global] Instance ascending_total : Total (Store.ascending key).
Proof. intros a b. unfold Store.ascending. lia. Qed.

#[global] Instance ascending_transitive : Transitive (Store.ascending key).
Proof. intros a b c. unfold Store.ascending. lia. Qed.

#[global] Instance descending_total : Total (Store.descending key).
Proof. intros a b. unfold Store.descending. lia. Qed.

#[global] Instance descending_transitive : Transitive (Store.descending key).
Proof. intros a b c. unfold Store.descending. lia. Qed.

End Orders.

Lemma eq_string_true (a b : jsstring) : Store.eq_string a b = true <-> a = b.
Proof. unfold Store.eq_string. apply bool_decide_eq_true. Qed.

(** What the store's [ORDER BY] gives: the rows, rearranged, every one
    before all those that do not precede it. *)
Lemma ordered_rows {A : Type} (R : relation A) `{forall a b, Decision (R a b)}
    `{!Total R} `{!Transitive R} (keep : A -> bool) (rows : list A) :
  StronglySorted R (merge_sort R (List.filter keep rows))
  /\ Permutation (merge_sort R (List.filter keep rows)) (List.filter keep rows)
  /\ forall a : A,
       In a (merge_sort R (List.filter keep rows)) <-> In a rows /\ keep a = true.
Proof.
  split; [apply StronglySorted_merge_sort; assumption|].
  split; [apply merge_sort_Permutation|].
  intros a. rewrite <- filter_In.
  split; apply Permutation_in;
    [|symmetry]; apply merge_sort_Permutation.
Qed.

(** C9: [getChatHistory] never rejects; when the query fails it logs the
    error and returns the empty list, otherwise it returns exactly the
    messages of the session, oldest first.  [getUserChatSessions] does
    the same with the sessions of the user for the book, most recently
    updated first. *)
Theorem C9_reads_are_ordered_and_never_fail (E : Env)
    (sessionId userId bookId : jsstring) (w : World) :
  match messages_select E w sessionId with
  | Some e =>
      QAService.getChatHistory E sessionId w
      = (inr [], log_line (lit "Error fetching chat history:") (LogDb e) w)
  | None =>
      exists rows : list MessageRow.t,
        QAService.getChatHistory E sessionId w = (inr rows, w)
        /\ StronglySorted
             (fun older newer =>
                (MessageRow.created_at older <= MessageRow.created_at newer)%N)
             rows
        /\ (forall m : MessageRow.t,
              In m rows
              <-> In m (chat_messages w) /\ MessageRow.session_id m = sessionId)
        /\ length rows
           = length (List.filter
                       (fun m => Store.eq_string (MessageRow.session_id m) sessionId)
                       (chat_messages w))
  end
  /\ match sessions_select E w userId bookId with
     | Some e =>
         QAService.getUserChatSessions E userId bookId w
         = (inr [], log_line (lit "Error fetching chat sessions:") (LogDb e) w)
     | None =>
         exists rows : list SessionRow.t,
           QAService.getUserChatSessions E userId bookId w = (inr rows, w)
           /\ StronglySorted
                (fun recent stale =>
                   (SessionRow.updated_at stale <= SessionRow.updated_at recent)%N)
                rows
           /\ (forall s : SessionRow.t,
                 In s rows
                 <-> In s (chat_sessions w)
                     /\ SessionRow.user_id s = userId
                     /\ SessionRow.book_id s = bookId)
           /\ length rows
              = length (List.filter
                          (fun s => Store.eq_string (SessionRow.user_id s) userId
                                    && Store.eq_string (SessionRow.book_id s) bookId)
                          (chat_sessions w))
     end.
Proof.
  split.
  - unfold QAService.getChatHistory, bind, Store.select_messages.
    destruct (messages_select E w sessionId) as [e|]; [reflexivity|].
    cbn [Store.error Store.data default].
    eexists. split; [reflexivity|].
    destruct (ordered_rows (Store.ascending MessageRow.created_at)
                (fun m => Store.eq_string (MessageRow.session_id m) sessionId)
                (chat_messages w)) as (Hsorted & Hperm & Hin).
    split; [exact Hsorted|]. split.
    + intros m. rewrite Hin, eq_string_true. reflexivity.
    + now apply Permutation_length.
  - unfold QAService.getUserChatSessions, bind, Store.select_sessions.
    destruct (sessions_select E w userId bookId) as [e|]; [reflexivity|].
    cbn [Store.error Store.data default].
    eexists. split; [reflexivity|].
    destruct (ordered_rows (Store.descending SessionRow.updated_at)
                (fun s => Store.eq_string (SessionRow.user_id s) userId
                          && Store.eq_string (SessionRow.book_id s) bookId)
                (chat_sessions w)) as (Hsorted & Hperm & Hin).
    split; [exact Hsorted|]. split.
    + intros s. rewrite Hin, andb_true_iff, !eq_string_true. reflexivity.
    + now apply Permutation_length.
Qed.

(** The read path on a store that holds rows, and on one that is down. *)
Example getChatHistory_busy_world :
  fst (QAService.getChatHistory Scenario.all_well (lit "session-1")
         Scenario.busy_world)
  = inr [MessageRow.mk (lit "session-1") (lit "q1") user None 3;
         MessageRow.mk (lit "session-1") (lit "a1") assistant None 6].
Proof. vm_compute. reflexivity. Qed.

Example getUserChatSessions_busy_world :
  fst (QAService.getUserChatSessions Scenario.all_well (lit "u1") (lit "doc1")
         Scenario.busy_world)
  = inr [SessionRow.mk (lit "session-2") (lit "u1") (lit "doc1") (lit "second") 1 9;
         SessionRow.mk (lit "session-1") (lit "u1") (lit "doc1") (lit "first") 0 5].
Proof. vm_compute. reflexivity. Qed.

Example getChatHistory_store_down :
  QAService.getChatHistory Scenario.messages_rejected (lit "session-1")
    Scenario.busy_world
  = (inr [],
     log_line (lit "Error fetching chat history:") (LogDb Scenario.store_down)
       Scenario.busy_world).
Proof. reflexivity. Qed.

(* ===================================================================== *)
(** ** The hash behind [getEmbedding] *)
(* ===================================================================== *)

Section Hash.

Import Int32.

Local Open Scope Z_scope.

Lemma ToInt32_range (z : Z) : - 2 ^ 31 <= ToInt32 z < 2 ^ 31.
Proof.
  unfold ToInt32.
  pose proof (Z.mod_pos_bound (z + 2 ^ 31) (2 ^ 32) ltac:(lia)). lia.
Qed.

Lemma ToInt32_small (z : Z) : - 2 ^ 31 <= z < 2 ^ 31 -> ToInt32 z = z.
Proof.
  intros Hz. unfold ToInt32. rewrite Z.mod_small; lia.
Qed.

Lemma ToInt32_mod (z : Z) : ToInt32 z mod 2 ^ 32 = z mod 2 ^ 32.
Proof.
  unfold ToInt32.
  rewrite Zminus_mod, Z.mod_mod by lia.
  rewrite <- Zminus_mod. f_equal. lia.
Qed.

Lemma ToInt32_congr (a b : Z) :
  a mod 2 ^ 32 = b mod 2 ^ 32 -> ToInt32 a = ToInt32 b.
Proof.
  intros Hab. unfold ToInt32.
  rewrite (Zplus_mod a), (Zplus_mod b), Hab. reflexivity.
Qed.

Lemma ToInt32_idem (z : Z) : ToInt32 (ToInt32 z) = ToInt32 z.
Proof. apply ToInt32_small, ToInt32_range. Qed.

Lemma band_diag (z : Z) : band z z = ToInt32 z.
Proof. unfold band. rewrite Z.land_diag. apply ToInt32_idem. Qed.

(** One turn of the loop multiplies by 31 and adds the code unit, modulo
    [2^32]. *)
Lemma hash_step (hash a : Z) (char : N) :
  hash = ToInt32 a ->
  band (shl hash 5 - hash + Z.of_N char) (shl hash 5 - hash + Z.of_N char)
  = ToInt32 (31 * a + Z.of_N char).
Proof.
  intros ->. rewrite band_diag. unfold shl.
  rewrite ToInt32_idem, Z.shiftl_mul_pow2 by lia.
  apply ToInt32_congr.
  rewrite Zplus_mod, Zminus_mod, !ToInt32_mod.
  rewrite (Zmult_mod (ToInt32 a)), ToInt32_mod.
  rewrite <- Zmult_mod, <- Zminus_mod, <- Zplus_mod.
  f_equal. lia.
Qed.

Lemma fold_left_step {A B : Type} (f : A -> B -> A) (x : B) (l : list B)
    (a : A) :
  fold_left f (x :: l) a = fold_left f l (f a x).
Proof. reflexivity. Qed.

Lemma simpleHash_from (str : jsstring) (hash a : Z) :
  hash = ToInt32 a ->
  fold_left
    (fun hash char =>
       let hash := shl hash 5 - hash + Z.of_N char in band hash hash)
    str hash
  = ToInt32 (fold_left (fun acc char => 31 * acc + Z.of_N char) str a).
Proof.
  revert hash a. induction str as [|char str IH]; intros hash a Hh.
  - exact Hh.
  - rewrite !fold_left_step. apply IH. exact (hash_step hash a char Hh).
Qed.

Lemma simpleHash_horner (str : jsstring) :
  GroqService.simpleHash str = ToInt32 (View.horner str).
Proof.
  unfold GroqService.simpleHash, View.horner.
  apply simpleHash_from. reflexivity.
Qed.

Lemma horner_from (str : jsstring) (a : Z) :
  fold_left (fun acc char => 31 * acc + Z.of_N char) str a
  = a * 31 ^ Z.of_nat (length str) + View.horner str.
Proof.
  unfold View.horner. revert a.
  induction str as [|char str IH]; intros a.
  - cbn. lia.
  - rewrite !fold_left_step. cbn [length].
    rewrite IH, (IH (31 * 0 + Z.of_N char)).
    rewrite Nat2Z.inj_succ, Z.pow_succ_r by lia. lia.
Qed.

Lemma horner_app (s t : jsstring) :
  View.horner (s ++ t)
  = View.horner s * 31 ^ Z.of_nat (length t) + View.horner t.
Proof.
  unfold View.horner at 1. rewrite fold_left_app.
  apply horner_from.
Qed.

Lemma ToInt32_affine (x y k : Z) :
  ToInt32 (ToInt32 x * k + ToInt32 y) = ToInt32 (x * k + y).
Proof.
  apply ToInt32_congr.
  rewrite Zplus_mod, Zmult_mod, !ToInt32_mod.
  now rewrite <- Zmult_mod, <- Zplus_mod.
Qed.

Lemma simpleHash_concat (s t : jsstring) :
  GroqService.simpleHash (s ++ t)
  = ToInt32
      (GroqService.simpleHash s * 31 ^ Z.of_nat (length t)
       + GroqService.simpleHash t).
Proof.
  rewrite !simpleHash_horner, horner_app. symmetry. apply ToInt32_affine.
Qed.

Lemma simpleHash_swap (before after m1 m2 : jsstring) :
  length m1 = length m2 ->
  GroqService.simpleHash m1 = GroqService.simpleHash m2 ->
  GroqService.simpleHash (before ++ m1 ++ after)
  = GroqService.simpleHash (before ++ m2 ++ after).
Proof.
  intros Hlen Hhash.
  rewrite !(simpleHash_concat before), !(simpleHash_concat _ after).
  now rewrite !length_app, Hlen, Hhash.
Qed.

End Hash.

(** X1: [simpleHash] always returns a 32-bit signed integer, and it is
    Horner's rule in base 31 over the code units, reduced modulo [2^32];
    the empty string hashes to 0. *)
Theorem simpleHash_is_horner_mod_2_32 (str : jsstring) :
  (- 2 ^ 31 <= GroqService.simpleHash str < 2 ^ 31)%Z
  /\ GroqService.simpleHash str = Int32.ToInt32 (View.horner str)
  /\ (GroqService.simpleHash str mod 2 ^ 32 = View.horner str mod 2 ^ 32)%Z
  /\ GroqService.simpleHash [] = 0%Z.
Proof.
  rewrite simpleHash_horner. split; [apply ToInt32_range|].
  split; [reflexivity|]. split; [apply ToInt32_mod|reflexivity].
Qed.

(** X2: the hash of a concatenation is got from the hashes of the two
    parts: [hash (s ++ t) = ToInt32 (hash s * 31^|t| + hash t)]. *)
Theorem simpleHash_app (s t : jsstring) :
  GroqService.simpleHash (s ++ t)
  = Int32.ToInt32
      (GroqService.simpleHash s * 31 ^ Z.of_nat (length t)
       + GroqService.simpleHash t)%Z.
Proof.
  rewrite !simpleHash_horner, horner_app. symmetry. apply ToInt32_affine.
Qed.

(** X3: two strings of the same length with the same hash can be
    exchanged inside any text without changing its hash. *)
Theorem simpleHash_collisions_spread (before after m1 m2 : jsstring) :
  length m1 = length m2 ->
  GroqService.simpleHash m1 = GroqService.simpleHash m2 ->
  GroqService.simpleHash (before ++ m1 ++ after)
  = GroqService.simpleHash (before ++ m2 ++ after).
Proof.
  intros Hlen Hhash.
  rewrite !(simpleHash_concat before), !(simpleHash_concat _ after).
  now rewrite !length_app, Hlen, Hhash.
Qed.

Lemma simpleHash_collisions_spread_witness :
  GroqService.simpleHash (lit "Is " ++ lit "Aa" ++ lit " a word?")
  = GroqService.simpleHash (lit "Is " ++ lit "BB" ++ lit " a word?").
Proof.
  apply simpleHash_collisions_spread; vm_compute; reflexivity.
Defined.

Section EmbeddingFacts.

Context (Math_sin : number -> number).

Lemma getEmbedding_same_hash (s t : jsstring) :
  GroqService.simpleHash s = GroqService.simpleHash t ->
  GroqService.getEmbedding Math_sin s = GroqService.getEmbedding Math_sin t.
Proof. unfold GroqService.getEmbedding. now intros ->. Qed.

Lemma getEmbedding_length (text : jsstring) :
  length (GroqService.getEmbedding Math_sin text) = 1536.
Proof.
  unfold GroqService.getEmbedding. now rewrite length_imap, length_replicate.
Qed.

Lemma getEmbedding_lookup (text : jsstring) (i : nat) :
  i < 1536 ->
  GroqService.getEmbedding Math_sin text !! i
  = Some (mul (Math_sin (add (of_Z (GroqService.simpleHash text)) (of_nat i)))
              (dec 5 10)).
Proof.
  intros Hi. unfold GroqService.getEmbedding.
  rewrite list_lookup_imap, lookup_replicate_2 by exact Hi. reflexivity.
Qed.

End EmbeddingFacts.

(** X4: whatever [Math.sin] is, [getEmbedding] returns 1536 numbers, the
    [i]-th being [sin (hash + i) * 0.5], and it tells texts apart only by
    their 32-bit hash: exchanging ["Aa"] for ["BB"] anywhere in a text
    gives a different text with the same embedding. *)
Theorem getEmbedding_blind_to_collisions (Math_sin : number -> number)
    (before after : jsstring) :
  let s := before ++ lit "Aa" ++ after in
  let t := before ++ lit "BB" ++ after in
  s <> t
  /\ GroqService.getEmbedding Math_sin s = GroqService.getEmbedding Math_sin t
  /\ length (GroqService.getEmbedding Math_sin s) = 1536
  /\ forall i : nat,
       i < 1536 ->
       GroqService.getEmbedding Math_sin s !! i
       = Some (mul (Math_sin (add (of_Z (GroqService.simpleHash s)) (of_nat i)))
                   (dec 5 10)).
Proof.
  intros s t. split; [|split; [|split]].
  - subst s t. intros Heq. apply app_inv_head in Heq.
    revert Heq. vm_compute. discriminate.
  - apply getEmbedding_same_hash.
    apply simpleHash_swap; vm_compute; reflexivity.
  - apply getEmbedding_length.
  - intros i Hi. now apply getEmbedding_lookup.
Qed.

Lemma getEmbedding_blind_to_collisions_witness :
  GroqService.getEmbedding (fun x => x) (lit "Is " ++ lit "Aa" ++ lit " a word?")
  = GroqService.getEmbedding (fun x => x) (lit "Is " ++ lit "BB" ++ lit " a word?")
  /\ GroqService.getEmbedding (fun x => x)
       (lit "Is " ++ lit "Aa" ++ lit " a word?") !! 0
     = Some (mul (add (of_Z (GroqService.simpleHash
                               (lit "Is " ++ lit "Aa" ++ lit " a word?")))
                      (of_nat 0))
                 (dec 5 10)).
Proof.
  destruct (getEmbedding_blind_to_collisions (fun x => x) (lit "Is ")
              (lit " a word?")) as (_ & Hsame & _ & Hentry).
  split; [exact Hsame|]. apply Hentry. lia.
Defined.

(* ===================================================================== *)
(** ** The completion client *)
(* ===================================================================== *)

Section Trim.

Lemma trimStart_head (s : jsstring) (c : code_unit) :
  head (trimStart s) = Some c -> is_white c = false.
Proof.
  induction s as [|d s IH]; [discriminate|].
  cbn [trimStart]. destruct (is_white d) eqn:Hd; [exact IH|].
  now intros [= <-].
Qed.

Lemma trimStart_snoc (s : jsstring) (c : code_unit) :
  is_white c = false -> exists s', trimStart (s ++ [c]) = s' ++ [c].
Proof.
  intros Hc. induction s as [|d s [s' IH]].
  - exists []. cbn. now rewrite Hc.
  - cbn [app trimStart]. destruct (is_white d).
    + now exists s'.
    + now exists (d :: s).
Qed.

Lemma trimStart_white (s : jsstring) :
  Forall (fun c => is_white c = true) s -> trimStart s = [].
Proof.
  induction 1 as [|c s Hc _ IH]; [reflexivity|].
  cbn [trimStart]. now rewrite Hc.
Qed.

Lemma head_rev_snoc (s : jsstring) (c : code_unit) :
  head (rev (s ++ [c])) = Some c.
Proof. now rewrite rev_app_distr. Qed.

Lemma last_rev (s : jsstring) : last (rev s) = head s.
Proof.
  destruct s as [|c s]; [reflexivity|]. cbn [rev head].
  apply last_snoc.
Qed.

Lemma trim_trimmed (s : jsstring) : View.trimmed (trim s).
Proof.
  unfold View.trimmed, trim. split.
  - intros c. destruct (trimStart s) as [|d r] eqn:Hs; [discriminate|].
    assert (Hd : is_white d = false)
      by (apply (trimStart_head s); now rewrite Hs).
    cbn [rev]. destruct (trimStart_snoc (rev r) d Hd) as [s' ->].
    rewrite head_rev_snoc. now intros [= <-].
  - intros c. rewrite last_rev. apply trimStart_head.
Qed.

Lemma trim_white (s : jsstring) :
  Forall (fun c => is_white c = true) s -> trim s = [].
Proof. intros Hs. unfold trim. now rewrite (trimStart_white s Hs). Qed.

End Trim.

(** Closes a goal [exists cause, run = rejection with cause] by reading
    the cause off the console line of the run. *)
Ltac name_cause :=
  match goal with
  | |- context [LogThrown ?t] =>
      exists t; cbv beta iota delta [Run.groq_message]; reflexivity
  end.

Section Completion.

Context (E : Env).

(** What [generateResponse] makes of the reply to the one request it
    posts. *)
Lemma generateResponse_outcome (messages : list Groq.Message)
    (options : Groq.Options) (w : World) :
  match View.completion (fetch E w (View.posted messages options)) with
  | Some text =>
      GroqService.generateResponse E messages options w = (inr text, w)
  | None =>
      exists cause : Thrown,
        GroqService.generateResponse E messages options w
        = (inl (Error (Run.groq_message cause)),
           log_line (lit "Error calling Groq API:") (LogThrown cause) w)
  end.
Proof.
  unfold GroqService.generateResponse, View.completion, View.posted,
    try_catch, bind, get_world, settle, throw, ret, console_error.
  destruct (fetch E w _) as [t|response]; [name_cause|].
  destruct (Groq.ok response); cbn [negb].
  - destruct (Groq.json response) as [t|data]; [name_cause|].
    destruct (Groq.choices data) as [[|first rest]|];
      [name_cause|reflexivity|name_cause].
  - name_cause.
Qed.

End Completion.

(** X5: [generateResponse] resolves exactly when the reply to the request
    it posts (the given messages, with temperature 0.3, 1000 tokens and
    the default model standing in for missing options) is [ok], parses,
    and has a first choice; it then returns that choice trimmed, no white
    space left at either end, and has changed nothing. *)
Theorem generateResponse_resolves_iff (E : Env) (messages : list Groq.Message)
    (options : Groq.Options) (w w' : World) (text : jsstring) :
  GroqService.generateResponse E messages options w = (inr text, w')
  <-> (exists (response : Groq.Response) (body : Groq.Body)
              (first : jsstring) (rest : list jsstring),
          fetch E w (View.posted messages options) = inr response
          /\ Groq.ok response = true
          /\ Groq.json response = inr body
          /\ Groq.choices body = Some (first :: rest)
          /\ text = trim first
          /\ View.trimmed text)
      /\ w' = w.
Proof.
  pose proof (generateResponse_outcome E messages options w) as Hout.
  unfold View.completion in Hout. split.
  - intros Hrun.
    destruct (fetch E w _) as [t|response];
      [destruct Hout as [cause Hout]; congruence|].
    destruct (Groq.ok response) eqn:Hok;
      [|destruct Hout as [cause Hout]; congruence].
    destruct (Groq.json response) as [t|body] eqn:Hjson;
      [destruct Hout as [cause Hout]; congruence|].
    destruct (Groq.choices body) as [[|first rest]|] eqn:Hchoices;
      [destruct Hout as [cause Hout]; congruence|
      |destruct Hout as [cause Hout]; congruence].
    rewrite Hout in Hrun. injection Hrun as <- <-.
    split; [|reflexivity].
    exists response, body, first, rest.
    repeat split; try assumption; try reflexivity; apply trim_trimmed.
  - intros [(response & body & first & rest & Hf & Hok & Hj & Hc & -> & _) ->].
    now rewrite Hf, Hok, Hj, Hc in Hout.
Qed.

Lemma generateResponse_resolves_iff_witness :
  GroqService.generateResponse Scenario.all_well [] (Groq.mkOptions None None None)
    Scenario.empty_world
  = (inr (lit "Plants make sugar from light."), Scenario.empty_world).
Proof.
  apply generateResponse_resolves_iff. split; [|reflexivity].
  exists Scenario.completion_ok,
    (Groq.mkBody None (Some [lit "  Plants make sugar from light.  "])),
    (lit "  Plants make sugar from light.  "), [].
  repeat split; try reflexivity.
  - intros c. vm_compute. now intros [= <-].
  - intros c. vm_compute. now intros [= <-].
Defined.

(** X6: when [generateResponse] rejects, what it throws is an [Error]
    object whose text is the fixed Thai prefix followed by the text of
    what it caught (or the fixed sentence, for a thrown value that is no
    [Error]); it has written one console line, and the tables and the
    clock of the store are as before. *)
Theorem generateResponse_rejects_with_one_line (E : Env)
    (messages : list Groq.Message) (options : Groq.Options) (w w' : World)
    (t : Thrown) :
  GroqService.generateResponse E messages options w = (inl t, w') ->
  exists cause : Thrown,
    t = Error (Run.groq_message cause)
    /\ console w' = console w ++ [(lit "Error calling Groq API:", LogThrown cause)]
    /\ chat_sessions w' = chat_sessions w
    /\ chat_messages w' = chat_messages w
    /\ clock w' = clock w
    /\ View.completion (fetch E w (View.posted messages options)) = None.
Proof.
  intros Hrun.
  pose proof (generateResponse_outcome E messages options w) as Hout.
  destruct (View.completion _) as [text|]; [congruence|].
  destruct Hout as [cause Hout]. rewrite Hout in Hrun.
  injection Hrun as <- <-. exists cause. repeat split.
Qed.

Lemma generateResponse_rejects_with_one_line_witness :
  exists cause : Thrown,
    console (snd (GroqService.generateResponse Scenario.completion_refuses []
                    (Groq.mkOptions None None None) Scenario.empty_world))
    = [(lit "Error calling Groq API:", LogThrown cause)].
Proof.
  destruct (generateResponse_rejects_with_one_line Scenario.completion_refuses
              [] (Groq.mkOptions None None None) Scenario.empty_world
              (snd (GroqService.generateResponse Scenario.completion_refuses []
                      (Groq.mkOptions None None None) Scenario.empty_world))
              (Error (lit "ไม่สามารถเชื่อมต่อกับ AI ได้: Groq API error: 429 - Rate limit reached")))
    as (cause & _ & Hconsole & _); [vm_compute; reflexivity|].
  exists cause. exact Hconsole.
Defined.

(** X7: for a reply that is not [ok], the text thrown names the status
    and then the body's [error.message], or the status text when the body
    does not parse, has no such message, or has an empty one. *)
Theorem generateResponse_not_ok_detail (E : Env) (messages : list Groq.Message)
    (options : Groq.Options) (w : World) (response : Groq.Response) :
  fetch E w (View.posted messages options) = inr response ->
  Groq.ok response = false ->
  let detail :=
    match Groq.json response with
    | inr body =>
        match Groq.error_message body with
        | Some (c :: message) => c :: message
        | _ => Groq.statusText response
        end
    | inl _ => Groq.statusText response
    end in
  fst (GroqService.generateResponse E messages options w)
  = inl (Error (lit "ไม่สามารถเชื่อมต่อกับ AI ได้: "
                ++ lit "Groq API error: " ++ of_N (Groq.status response)
                ++ lit " - " ++ detail)).
Proof.
  intros Hfetch Hok detail. subst detail.
  unfold View.posted in Hfetch.
  unfold GroqService.generateResponse, try_catch, bind, get_world, settle,
    throw, ret, console_error.
  rewrite Hfetch, Hok. cbn [negb fst].
  destruct (Groq.json response) as [t|body]; [reflexivity|].
  destruct (Groq.error_message body) as [[|c message]|]; reflexivity.
Qed.

Lemma generateResponse_not_ok_detail_witness :
  fst (GroqService.generateResponse Scenario.completion_refuses []
         (Groq.mkOptions None None None) Scenario.empty_world)
  = inl (Error (lit "ไม่สามารถเชื่อมต่อกับ AI ได้: "
                ++ lit "Groq API error: " ++ of_N 429
                ++ lit " - " ++ lit "Rate limit reached")).
Proof.
  apply (generateResponse_not_ok_detail Scenario.completion_refuses []
           (Groq.mkOptions None None None) Scenario.empty_world
           Scenario.completion_429); reflexivity.
Defined.

(** X8: [checkConnection] never rejects.  It answers [true] exactly when
    the completion end point yields a text that is not empty once
    trimmed; a reply of white space only is answered [false] without a
    console line, a failure is answered [false] after two lines, the
    client's and its own. *)
Theorem checkConnection_never_rejects (E : Env) (w : World) :
  let reply :=
    View.completion
      (fetch E w
         (View.posted [Groq.mkMessage user (lit "สวัสดี")]
            (Groq.mkOptions None (Some 10%N) None))) in
  match reply with
  | Some (c :: text) => GroqService.checkConnection E w = (inr true, w)
  | Some [] => GroqService.checkConnection E w = (inr false, w)
  | None =>
      exists cause : Thrown,
        GroqService.checkConnection E w
        = (inr false,
           log_line (lit "Groq connection check failed:")
             (LogThrown (Error (Run.groq_message cause)))
             (log_line (lit "Error calling Groq API:") (LogThrown cause) w))
  end.
Proof.
  intros reply. subst reply.
  pose proof (generateResponse_outcome E
                [Groq.mkMessage user (lit "สวัสดี")]
                (Groq.mkOptions None (Some 10%N) None) w) as Hout.
  unfold GroqService.checkConnection, try_catch, bind.
  destruct (View.completion _) as [[|c text]|].
  - now rewrite Hout.
  - now rewrite Hout.
  - destruct Hout as [cause ->]. now exists cause.
Qed.

(** X9: a reply whose first choice is white space only makes
    [generateResponse] resolve with the empty string, and
    [checkConnection] answer [false]. *)
Theorem blank_completion_is_empty (E : Env) (messages : list Groq.Message)
    (options : Groq.Options) (w : World) (response : Groq.Response)
    (body : Groq.Body) (first : jsstring) (rest : list jsstring) :
  fetch E w (View.posted messages options) = inr response ->
  Groq.ok response = true ->
  Groq.json response = inr body ->
  Groq.choices body = Some (first :: rest) ->
  Forall (fun c => is_white c = true) first ->
  GroqService.generateResponse E messages options w = (inr [], w)
  /\ (messages = [Groq.mkMessage user (lit "สวัสดี")] ->
      options = Groq.mkOptions None (Some 10%N) None ->
      GroqService.checkConnection E w = (inr false, w)).
Proof.
  intros Hfetch Hok Hjson Hchoices Hwhite.
  assert (Hrun : GroqService.generateResponse E messages options w = (inr [], w)).
  { pose proof (generateResponse_outcome E messages options w) as Hout.
    unfold View.completion in Hout.
    rewrite Hfetch, Hok, Hjson, Hchoices in Hout.
    now rewrite (trim_white first Hwhite) in Hout. }
  split; [exact Hrun|]. intros -> ->.
  unfold GroqService.checkConnection, try_catch, bind. now rewrite Hrun.
Qed.

Lemma blank_completion_is_empty_witness :
  GroqService.generateResponse Scenario.completion_is_blank
    [Groq.mkMessage user (lit "สวัสดี")] (Groq.mkOptions None (Some 10%N) None)
    Scenario.empty_world
  = (inr [], Scenario.empty_world)
  /\ GroqService.checkConnection Scenario.completion_is_blank
       Scenario.empty_world
     = (inr false, Scenario.empty_world).
Proof.
  destruct (blank_completion_is_empty Scenario.completion_is_blank
              [Groq.mkMessage user (lit "สวัสดี")]
              (Groq.mkOptions None (Some 10%N) None) Scenario.empty_world
              Scenario.completion_blank
              (Groq.mkBody None (Some [lit "   "; lit "second choice"]))
              (lit "   ") [lit "second choice"])
    as [Hrun Hcheck]; try reflexivity.
  - vm_compute. repeat constructor.
  - split; [exact Hrun|]. now apply Hcheck.
Defined.

(* ===================================================================== *)
(** ** More on [QAService] *)
(* ===================================================================== *)

Section Prompting.

Context (E : Env).

Lemma generateContextualAnswer_posted (question context : jsstring)
    (chunks : list Chunk.t) :
  QAService.generateContextualAnswer E question context chunks
  = GroqService.generateResponse E (View.prompt question context)
      (Groq.mkOptions (Some (dec 3 10)) (Some 1200%N) (Some Scenario.qa_model)).
Proof. reflexivity. Qed.




End Prompting.


(** How a world may change in a run: rows and console lines are added at
    the end of what was there, and the clock does not go back. *)
Section Growth.

Context (E : Env).

Let grows (w w' : World) : Prop :=
  chat_sessions w `prefix_of` chat_sessions w'
  /\ chat_messages w `prefix_of` chat_messages w'
  /\ console w `prefix_of` console w'
  /\ (clock w <= clock w')%N.

Lemma grows_refl (w : World) : grows w w.
Proof. repeat split; reflexivity. Qed.

Lemma grows_trans (w1 w2 w3 : World) : grows w1 w2 -> grows w2 w3 -> grows w1 w3.
Proof.
  intros (Hs & Hm & Hc & Hk) (Hs' & Hm' & Hc' & Hk').
  repeat split; first [etransitivity; eassumption | lia].
Qed.

Lemma log_line_grows (label : jsstring) (payload : Logged) (w : World) :
  grows w (log_line label payload w).
Proof.
  repeat split; cbn; try reflexivity. now apply prefix_app_r.
Qed.

Lemma saved_grows (row : MessageInsert.t) (w : World) :
  grows w (Run.saved E row w).
Proof.
  unfold Run.saved. destruct (message_insert E w row).
  - apply log_line_grows.
  - repeat split; cbn; try reflexivity; [now apply prefix_app_r|lia].
Qed.

Lemma resolveSession_grows (request : QARequest.t) (w w1 : World)
    (r : Thrown + jsstring) :
  QAService.resolveSession E request w = (r, w1) -> grows w w1.
Proof.
  unfold QAService.resolveSession.
  destruct (QARequest.sessionId request) as [[|c sid]|]; cbn [JsString.truthy];
    rewrite ?createChatSession_run; unfold ret;
    try (destruct (session_insert E w _));
    intros [= <- <-]; try apply grows_refl;
    (repeat split; cbn; try reflexivity; [now apply prefix_app_r|lia]).
Qed.

Lemma generateContextualAnswer_grows (question context : jsstring)
    (chunks : list Chunk.t) (w w' : World) (r : Thrown + jsstring) :
  QAService.generateContextualAnswer E question context chunks w = (r, w') ->
  grows w w'.
Proof.
  destruct (generateContextualAnswer_run E question context chunks w)
    as [[answer ->]|[cause ->]]; intros [= <- <-];
    [apply grows_refl|apply log_line_grows].
Qed.

Lemma processQuestion_grows (request : QARequest.t) (w w' : World)
    (r : Thrown + QAResponse.t) :
  QAService.processQuestion E request w = (r, w') -> grows w w'.
Proof.
  rewrite processQuestion_run. unfold Run.rejected.
  destruct (searchSimilarContent E w _ _ _) as [cause|chunks];
    [intros [= <- <-]; apply log_line_grows|].
  destruct (QAService.resolveSession E request w) as [[cause|sid] w1] eqn:Hs;
    apply resolveSession_grows in Hs.
  { intros [= <- <-]. eapply grows_trans; [exact Hs|apply log_line_grows]. }
  destruct (QAService.generateContextualAnswer E _ _ chunks w1)
    as [[cause|answer] w2] eqn:Ha;
    apply generateContextualAnswer_grows in Ha;
    intros [= <- <-].
  - eapply grows_trans; [exact Hs|].
    eapply grows_trans; [exact Ha|apply log_line_grows].
  - eapply grows_trans; [exact Hs|].
    eapply grows_trans; [exact Ha|].
    eapply grows_trans; apply saved_grows.
Qed.

Lemma resolveSession_sessions (request : QARequest.t) (w w1 : World)
    (r : Thrown + jsstring) :
  QAService.resolveSession E request w = (r, w1) ->
  chat_sessions w1 = chat_sessions w
  \/ exists row : SessionRow.t,
       chat_sessions w1 = chat_sessions w ++ [row]
       /\ r = inr (SessionRow.id row)
       /\ SessionRow.user_id row = QARequest.userId request
       /\ SessionRow.book_id row = QARequest.bookId request
       /\ SessionRow.title row = Spec.title_of (QARequest.question request).
Proof.
  unfold QAService.resolveSession.
  destruct (QARequest.sessionId request) as [[|c sid]|]; cbn [JsString.truthy];
    rewrite ?createChatSession_run; unfold ret;
    try (destruct (session_insert E w _));
    intros [= <- <-]; try (now left);
    right; eexists; (split; [reflexivity|]); repeat split.
Qed.

End Growth.

(** X11: whatever the collaborators answer and however the call ends,
    [processQuestion] only adds: the sessions, the messages and the
    console it found are still there, in place, at the start of what it
    leaves; it adds at most one session and at most two messages, and the
    store's clock does not go back. *)
Theorem processQuestion_only_appends (E : Env) (request : QARequest.t)
    (w w' : World) (r : Thrown + QAResponse.t) :
  QAService.processQuestion E request w = (r, w') ->
  chat_sessions w `prefix_of` chat_sessions w'
  /\ chat_messages w `prefix_of` chat_messages w'
  /\ console w `prefix_of` console w'
  /\ (clock w <= clock w')%N
  /\ length (chat_sessions w') <= length (chat_sessions w) + 1
  /\ length (chat_messages w') <= length (chat_messages w) + 2.
Proof.
  intros Hrun.
  destruct (processQuestion_grows E request w w' r Hrun) as (Hs & Hm & Hc & Hk).
  repeat split; try assumption.
  - destruct (processQuestion_sessions E request w w' r Hrun)
      as [->|(sid & w1 & Hres & -> & _)]; [lia|].
    apply resolveSession_sessions in Hres as [->|(row & -> & _)];
      [lia|rewrite length_app; cbn; lia].
  - revert Hrun. rewrite processQuestion_run. unfold Run.rejected.
    destruct (searchSimilarContent E w _ _ _) as [cause|chunks];
      [intros [= <- <-]; cbn; lia|].
    destruct (QAService.resolveSession E request w) as [[cause|sid] w1] eqn:Hres;
      apply resolveSession_messages in Hres;
      [intros [= <- <-]; cbn; rewrite Hres; lia|].
    destruct (QAService.generateContextualAnswer E _ _ chunks w1)
      as [[cause|answer] w2] eqn:Ha;
      apply generateContextualAnswer_tables in Ha as (_ & Hm2 & _);
      intros [= <- <-]; [cbn; rewrite Hm2, Hres; lia|].
    rewrite !saved_messages_kept, !length_app, Hm2, Hres.
    unfold Run.kept.
    destruct (message_insert E w2 _), (message_insert E (Run.saved E _ w2) _);
      cbn; lia.
Qed.

Lemma processQuestion_only_appends_witness :
  chat_messages Scenario.busy_world
  `prefix_of`
  chat_messages (snd (QAService.processQuestion Scenario.all_well
                        Scenario.follow_up Scenario.busy_world))
  /\ length (chat_messages
               (snd (QAService.processQuestion Scenario.all_well
                       Scenario.follow_up Scenario.busy_world)))
     <= length (chat_messages Scenario.busy_world) + 2.
Proof.
  destruct (processQuestion_only_appends Scenario.all_well Scenario.follow_up
              Scenario.busy_world
              (snd (QAService.processQuestion Scenario.all_well
                      Scenario.follow_up Scenario.busy_world))
              (fst (QAService.processQuestion Scenario.all_well
                      Scenario.follow_up Scenario.busy_world)))
    as (_ & Hm & _ & _ & _ & Hlen).
  - now destruct (QAService.processQuestion _ _ _).
  - split; assumption.
Defined.

(** X12: a call that rejects has written no message; it has left the
    sessions as they were, or with the one session it opened before the
    failure, which is not taken back. *)
Theorem processQuestion_failure_writes_no_message (E : Env)
    (request : QARequest.t) (w w' : World) (t : Thrown) :
  QAService.processQuestion E request w = (inl t, w') ->
  chat_messages w' = chat_messages w
  /\ (chat_sessions w' = chat_sessions w
      \/ exists row : SessionRow.t,
           chat_sessions w' = chat_sessions w ++ [row]
           /\ SessionRow.user_id row = QARequest.userId request
           /\ SessionRow.book_id row = QARequest.bookId request
           /\ SessionRow.title row = Spec.title_of (QARequest.question request)).
Proof.
  rewrite processQuestion_run. unfold Run.rejected.
  destruct (searchSimilarContent E w _ _ _) as [cause|chunks].
  { intros [= _ <-]. cbn. split; [reflexivity|now left]. }
  assert (Hstep : forall r w1,
             QAService.resolveSession E request w = (r, w1) ->
             chat_messages w1 = chat_messages w
             /\ (chat_sessions w1 = chat_sessions w
                 \/ exists row : SessionRow.t,
                      chat_sessions w1 = chat_sessions w ++ [row]
                      /\ SessionRow.user_id row = QARequest.userId request
                      /\ SessionRow.book_id row = QARequest.bookId request
                      /\ SessionRow.title row
                         = Spec.title_of (QARequest.question request))).
  { intros r w1 Hres. split; [exact (resolveSession_messages E _ _ _ _ Hres)|].
    destruct (resolveSession_sessions E _ _ _ _ Hres)
      as [Hsame|(row & Hrow & _ & Hu & Hb & Ht)]; [now left|].
    right. now exists row. }
  destruct (QAService.resolveSession E request w) as [[cause|sid] w1] eqn:Hres;
    destruct (Hstep _ _ eq_refl) as (Hm & Hs).
  { intros [= _ <-]. cbn. split; assumption. }
  destruct (QAService.generateContextualAnswer E _ _ chunks w1)
    as [[cause|answer] w2] eqn:Ha; [|discriminate].
  apply generateContextualAnswer_tables in Ha as (Hs2 & Hm2 & _).
  intros [= _ <-]. cbn. rewrite Hs2, Hm2. split; assumption.
Qed.

Lemma processQuestion_failure_writes_no_message_witness :
  chat_messages (snd (QAService.processQuestion Scenario.completion_refuses
                        Scenario.first_question Scenario.empty_world))
  = []
  /\ length (chat_sessions
               (snd (QAService.processQuestion Scenario.completion_refuses
                       Scenario.first_question Scenario.empty_world)))
     = 1.
Proof.
  destruct (processQuestion_failure_writes_no_message
              Scenario.completion_refuses Scenario.first_question
              Scenario.empty_world
              (snd (QAService.processQuestion Scenario.completion_refuses
                      Scenario.first_question Scenario.empty_world))
              (Error QAService.PROCESSING_ERROR))
    as (Hm & _); [vm_compute; reflexivity|].
  split; [exact Hm|vm_compute; reflexivity].
Defined.

Lemma formatSource_follows (chunks : list Chunk.t) :
  Forall2
    (fun c s =>
       Source.pageNumber s = Chunk.page_number c
       /\ Source.section s = Chunk.section c
       /\ Source.confidence s = Spec.contribution c
       /\ Source.content s = take 200 (Chunk.content c) ++ Spec.ellipsis)
    chunks (map QAService.formatSource chunks).
Proof.
  induction chunks as [|c chunks IH]; constructor; [|exact IH].
  cbn [QAService.formatSource Source.pageNumber Source.section
         Source.confidence Source.content].
  repeat split. apply or_number_contribution.
Qed.

(** X13: the [sources] of a response follow the retrieved passages one
    for one and in order: same page number, the section read through
    [metadata?.section], the passage's score for confidence (0.8 when the
    score is missing, zero or NaN) and the cut content. *)
Theorem processQuestion_sources_follow_passages (E : Env)
    (request : QARequest.t) (w w' : World) (res : QAResponse.t)
    (chunks : list Chunk.t) :
  QAService.processQuestion E request w = (inr res, w') ->
  searchSimilarContent E w (QARequest.question request)
    (QARequest.bookId request) 5%N = inr chunks ->
  Forall2
    (fun c s =>
       Source.pageNumber s = Chunk.page_number c
       /\ Source.section s = Chunk.section c
       /\ Source.confidence s = Spec.contribution c
       /\ Source.content s = take 200 (Chunk.content c) ++ Spec.ellipsis)
    chunks (QAResponse.sources res)
  /\ length (QAResponse.sources res) = length chunks.
Proof.
  rewrite processQuestion_run. intros Hrun Hsearch. rewrite Hsearch in Hrun.
  unfold Run.rejected in Hrun.
  destruct (QAService.resolveSession E request w) as [[cause|sid] w1];
    [discriminate|].
  destruct (QAService.generateContextualAnswer E _ _ chunks w1)
    as [[cause|answer] w2]; [discriminate|].
  injection Hrun as <- _. cbn [QAResponse.sources].
  split; [apply formatSource_follows|apply length_map].
Qed.

Lemma processQuestion_sources_follow_passages_witness :
  map Source.pageNumber
    (match fst (QAService.processQuestion Scenario.all_well
                  Scenario.first_question Scenario.empty_world) with
     | inr res => QAResponse.sources res
     | inl _ => []
     end)
  = [7; 9]%N.
Proof.
  destruct (QAService.processQuestion Scenario.all_well
              Scenario.first_question Scenario.empty_world)
    as [[t|res] w'] eqn:Hrun; [revert Hrun; vm_compute; discriminate|].
  destruct (processQuestion_sources_follow_passages _ _ _ _ _
              Scenario.two_passages Hrun eq_refl) as [Hall _].
  cbn [fst]. unfold Scenario.two_passages in Hall.
  inversion Hall as [|c1 s1 l1 k1 (Hp1 & _) Hrest]; subst.
  inversion Hrest as [|c2 s2 l2 k2 (Hp2 & _) Hnil]; subst.
  inversion Hnil; subst. cbn [map]. now rewrite Hp1, Hp2.
Defined.

(** X14: when retrieval finds nothing, the answer is still asked for,
    with the "no content" sentence as context; on success the response
    has no sources and the assistant message is saved with no source and
    confidence 0. *)
Theorem processQuestion_without_passages (E : Env) (request : QARequest.t)
    (w w1 : World) (sid : jsstring) :
  searchSimilarContent E w (QARequest.question request)
    (QARequest.bookId request) 5%N = inr [] ->
  QAService.resolveSession E request w = (inr sid, w1) ->
  let posted :=
    Groq.mkRequest Scenario.qa_model
      (View.prompt (QARequest.question request) QAService.NO_CONTENT)
      (dec 3 10) 1200%N in
  match View.completion (fetch E w1 posted) with
  | Some answer =>
      let u := Run.user_insert sid (QARequest.question request) in
      let a :=
        MessageInsert.mk sid answer assistant (Some (Metadata.mk [] zero)) in
      QAService.processQuestion E request w
      = (inr (QAResponse.mk answer [] sid), Run.saved E a (Run.saved E u w1))
  | None =>
      exists cause : Thrown,
        QAService.processQuestion E request w
        = Run.rejected (Error (Run.groq_message cause))
            (log_line (lit "Error calling Groq API:") (LogThrown cause) w1)
  end.
Proof.
  intros Hsearch Hsession posted.
  pose proof (generateResponse_outcome E
                (View.prompt (QARequest.question request) QAService.NO_CONTENT)
                (Groq.mkOptions (Some (dec 3 10)) (Some 1200%N)
                   (Some Scenario.qa_model)) w1) as Hout.
  change (View.posted _ _) with posted in Hout.
  rewrite processQuestion_run, Hsearch, Hsession.
  change (QAService.buildContext []) with QAService.NO_CONTENT.
  rewrite generateContextualAnswer_posted.
  destruct (View.completion (fetch E w1 posted)) as [answer|].
  - rewrite Hout. reflexivity.
  - destruct Hout as [cause ->]. now exists cause.
Qed.

Lemma processQuestion_without_passages_witness :
  exists w' : World,
    QAService.processQuestion Scenario.nothing_found Scenario.follow_up
      Scenario.empty_world
    = (inr (QAResponse.mk (lit "Plants make sugar from light.") []
              (lit "session-7")), w')
    /\ map MessageRow.metadata (chat_messages w')
       = [None; Some (Metadata.mk [] zero)].
Proof.
  pose proof (processQuestion_without_passages Scenario.nothing_found
                Scenario.follow_up Scenario.empty_world Scenario.empty_world
                (lit "session-7") eq_refl eq_refl) as Hrun.
  cbv zeta in Hrun.
  change (View.completion _) with (Some (lit "Plants make sugar from light."))
    in Hrun.
  eexists. split; [exact Hrun|]. vm_compute. reflexivity.
Defined.

(** X15: [createChatSession] either throws, with the store's message
    after a fixed label, and leaves the store as it was, or returns the
    identifier the store generated, having added one session row for the
    given user and book whose title has at most 53 code units. *)
Theorem createChatSession_all_or_nothing (E : Env)
    (userId bookId question : jsstring) (w : World) :
  match session_insert E w
          (SessionInsert.mk userId bookId (Spec.title_of question)) with
  | inl e =>
      QAService.createChatSession E userId bookId question w
      = (inl (Error (lit "Failed to create chat session: " ++ db_message e)), w)
  | inr new_id =>
      exists (row : SessionRow.t) (w' : World),
        QAService.createChatSession E userId bookId question w = (inr new_id, w')
        /\ chat_sessions w' = chat_sessions w ++ [row]
        /\ chat_messages w' = chat_messages w
        /\ console w' = console w
        /\ SessionRow.id row = new_id
        /\ SessionRow.user_id row = userId
        /\ SessionRow.book_id row = bookId
        /\ SessionRow.created_at row = SessionRow.updated_at row
        /\ length (SessionRow.title row) <= 53
  end.
Proof.
  rewrite createChatSession_run.
  destruct (session_insert E w _) as [e|new_id]; [reflexivity|].
  eexists. eexists. split; [reflexivity|].
  cbn [chat_sessions chat_messages console SessionRow.id SessionRow.user_id
         SessionRow.book_id SessionRow.created_at SessionRow.updated_at
         SessionRow.title].
  repeat split. simpl SessionRow.title. unfold Spec.title_of.
  destruct (decide (length question <= 50)) as [Hshort|Hlong]; [lia|].
  rewrite length_app, length_take. change (length Spec.ellipsis) with 3. lia.
Qed.

(* ===================================================================== *)
(** ** More on [buildContext] *)
(* ===================================================================== *)

(** X16: a passage more at the end adds the separator and that passage's
    block, numbered one past the passages before it, to the context of
    those passages. *)
Theorem buildContext_snoc (chunks : list Chunk.t) (chunk : Chunk.t) :
  chunks <> [] ->
  QAService.buildContext (chunks ++ [chunk])
  = QAService.buildContext chunks ++ QAService.SEPARATOR
    ++ Spec.block (N.of_nat (S (length chunks))) chunk.
Proof.
  intros Hne.
  rewrite buildContext_nonempty by (destruct chunks; discriminate).
  rewrite (buildContext_nonempty chunks Hne), imap_app.
  cbn [imap]. rewrite join_snoc.
  - rewrite Nat.add_0_r. now rewrite contextPart_block.
  - destruct chunks; [contradiction|discriminate].
Qed.

Lemma buildContext_snoc_witness :
  QAService.buildContext (Scenario.two_passages ++ [Scenario.unscored])
  = QAService.buildContext Scenario.two_passages ++ QAService.SEPARATOR
    ++ Spec.block 3 Scenario.unscored.
Proof. apply (buildContext_snoc Scenario.two_passages). discriminate. Defined.

Lemma block_content_app (k : N) (c : Chunk.t) (extra : jsstring)
    (md : option ChunkMetadata.t) (score : option number) :
  Spec.block k
    (Chunk.mk (Chunk.content c ++ extra) (Chunk.page_number c) md score)
  = Spec.block k c ++ extra.
Proof.
  unfold Spec.block. cbn [Chunk.page_number Chunk.content].
  now rewrite <- !app_assoc.
Qed.

(** X17: the content of a passage is copied into the context as it is:
    two passages, and one passage whose content already holds the
    separator and the second block, give the same context. *)
Theorem buildContext_does_not_escape (chunks : list Chunk.t)
    (first second : Chunk.t) :
  let merged :=
    Chunk.mk
      (Chunk.content first ++ QAService.SEPARATOR
       ++ Spec.block (N.of_nat (S (S (length chunks)))) second)
      (Chunk.page_number first) (Chunk.metadata first)
      (Chunk.similarity first) in
  QAService.buildContext (chunks ++ [first; second])
  = QAService.buildContext (chunks ++ [merged])
  /\ length (chunks ++ [first; second]) <> length (chunks ++ [merged]).
Proof.
  intros merged. split; [|rewrite !length_app; cbn; lia].
  subst merged.
  replace (chunks ++ [first; second]) with ((chunks ++ [first]) ++ [second])
    by now rewrite <- app_assoc.
  rewrite buildContext_append
    by (intros Hnil; apply app_eq_nil in Hnil as [_ Hnil]; discriminate).
  rewrite length_app. cbn [length].
  replace (length chunks + 1) with (S (length chunks)) by lia.
  destruct (decide (chunks = [])) as [->|Hne].
  - cbn [app length]. rewrite !buildContext_single, block_content_app.
    now rewrite <- ?app_assoc.
  - rewrite !(buildContext_append chunks) by exact Hne.
    rewrite block_content_app. now rewrite <- ?app_assoc.
Qed.

(* ===================================================================== *)
(** ** Writing, then reading *)
(* ===================================================================== *)

Section SortedRows.

Context {A : Type} (key : A -> N).

Lemma strictly_sorted_filter (keep : A -> bool) (rows : list A) :
  StronglySorted N.lt (map key rows) ->
  StronglySorted N.lt (map key (List.filter keep rows)).
Proof.
  induction rows as [|r rows IH]; [intros; constructor|].
  cbn [map List.filter]. intros Hs. apply StronglySorted_inv in Hs as [Hs Hr].
  destruct (keep r); [|now apply IH].
  cbn [map]. constructor; [now apply IH|].
  apply List.Forall_forall. intros k Hk.
  apply (proj1 (List.Forall_forall _ _) Hr).
  apply in_map_iff in Hk as (x & <- & Hx). apply in_map.
  now apply filter_In in Hx as [Hx _].
Qed.

Lemma strictly_sorted_ascending (rows : list A) :
  StronglySorted N.lt (map key rows) ->
  StronglySorted (Store.ascending key) rows.
Proof.
  induction rows as [|r rows IH]; [intros; constructor|].
  cbn [map]. intros Hs. apply StronglySorted_inv in Hs as [Hs Hr].
  constructor; [now apply IH|].
  apply List.Forall_forall. intros x Hx. unfold Store.ascending.
  assert (key r < key x)%N; [|lia].
  apply (proj1 (List.Forall_forall _ _) Hr). now apply in_map.
Qed.

Lemma strictly_sorted_key_inj (rows : list A) (x y : A) :
  StronglySorted N.lt (map key rows) ->
  In x rows -> In y rows -> key x = key y -> x = y.
Proof.
  induction rows as [|r rows IH]; [contradiction|].
  cbn [map]. intros Hs. apply StronglySorted_inv in Hs as [Hs Hr].
  assert (Hlt : forall z, In z rows -> (key r < key z)%N).
  { intros z Hz. apply (proj1 (List.Forall_forall _ _) Hr). now apply in_map. }
  intros [->|Hx] [->|Hy] Hk; try reflexivity.
  - specialize (Hlt _ Hy). lia.
  - specialize (Hlt _ Hx). lia.
  - now apply IH.
Qed.

(** Ordering rows that are already in strict order changes nothing. *)
Lemma merge_sort_strictly_sorted (rows : list A) :
  StronglySorted N.lt (map key rows) ->
  merge_sort (Store.ascending key) rows = rows.
Proof.
  intros Hs.
  apply (StronglySorted_unique_strong (Store.ascending key)).
  - intros x1 x2 H1 H2 H12 H21. unfold Store.ascending in H12, H21.
    apply (strictly_sorted_key_inj rows); try assumption; [|now apply list_elem_of_In|lia].
    apply list_elem_of_In. now rewrite <- (merge_sort_Permutation (Store.ascending key) rows).
  - apply StronglySorted_merge_sort; apply _.
  - now apply strictly_sorted_ascending.
  - apply merge_sort_Permutation.
Qed.

End SortedRows.

Section RoundTrip.

Context (E : Env).

Lemma getChatHistory_stamped (sid : jsstring) (w : World) :
  View.stamped w ->
  messages_select E w sid = None ->
  QAService.getChatHistory E sid w = (inr (View.history sid w), w).
Proof.
  intros [Hsorted _] Hselect.
  unfold QAService.getChatHistory, bind, Store.select_messages.
  rewrite Hselect. cbn [Store.error Store.data default]. unfold ret.
  fold (View.history sid w). rewrite merge_sort_strictly_sorted; [reflexivity|].
  now apply strictly_sorted_filter.
Qed.

Lemma history_app (sid : jsstring) (w : World) (rows : list MessageRow.t)
    (sessions : list SessionRow.t) (lines : list (jsstring * Logged)) (k : N) :
  Forall (fun m => MessageRow.session_id m = sid) rows ->
  View.history sid (mkWorld sessions (chat_messages w ++ rows) lines k)
  = View.history sid w ++ rows.
Proof.
  intros Hrows. unfold View.history. cbn [chat_messages].
  rewrite List.filter_app. f_equal.
  induction Hrows as [|m rows Hm _ IH]; [reflexivity|].
  cbn [List.filter]. unfold Store.eq_string at 1.
  rewrite bool_decide_eq_true_2 by exact Hm. now rewrite IH.
Qed.

Lemma stamped_two_more (w : World) (sessions : list SessionRow.t)
    (lines : list (jsstring * Logged)) (u a : MessageRow.t) (stamp : N) :
  View.stamped w ->
  (clock w <= stamp)%N ->
  MessageRow.created_at u = stamp ->
  MessageRow.created_at a = N.succ stamp ->
  View.stamped
    (mkWorld sessions (chat_messages w ++ [u; a]) lines (N.succ (N.succ stamp))).
Proof.
  intros [Hsorted Hbelow] Hclock Hu Ha. unfold View.stamped.
  cbn [chat_messages clock]. split.
  - rewrite map_app. apply StronglySorted_app_2.
    + intros k1 k2 H1 H2.
      apply list_elem_of_In, in_map_iff in H1 as (m & <- & Hm).
      pose proof (proj1 (List.Forall_forall _ _) Hbelow m Hm) as Hlt.
      cbv beta in Hlt.
      cbn [map] in H2. rewrite Hu, Ha in H2.
      apply list_elem_of_In in H2. destruct H2 as [<-|[<-|[]]]; lia.
    + exact Hsorted.
    + cbn [map]. rewrite Hu, Ha. repeat constructor. lia.
  - apply Forall_app. split.
    + eapply Forall_impl; [exact Hbelow|]. cbn. intros m Hm. lia.
    + repeat constructor; lia.
Qed.

(** A successful call against a store that takes every message. *)
Lemma processQuestion_accepted (request : QARequest.t) (w w' : World)
    (res : QAResponse.t) :
  (forall w0 row, message_insert E w0 row = None) ->
  QAService.processQuestion E request w = (inr res, w') ->
  exists (chunks : list Chunk.t) (stamp : N),
    searchSimilarContent E w (QARequest.question request)
      (QARequest.bookId request) 5%N = inr chunks
    /\ (clock w <= stamp)%N
    /\ w' = mkWorld (chat_sessions w')
              (chat_messages w ++
                 [Spec.user_row (QAResponse.sessionId res)
                    (QARequest.question request) stamp;
                  Spec.assistant_row (QAResponse.sessionId res)
                    (QAResponse.answer res) chunks (N.succ stamp)])
              (console w') (N.succ (N.succ stamp)).
Proof.
  intros Htakes. rewrite processQuestion_run. unfold Run.rejected.
  destruct (searchSimilarContent E w _ _ _) as [cause|chunks]; [discriminate|].
  destruct (QAService.resolveSession E request w) as [[cause|sid] w1] eqn:Hs;
    [discriminate|].
  destruct (QAService.generateContextualAnswer E _ _ chunks w1)
    as [[cause|answer] w2] eqn:Ha; [discriminate|].
  intros [= <- <-]. exists chunks, (clock w2).
  pose proof (resolveSession_messages E _ _ _ _ Hs) as Hm1.
  destruct (resolveSession_grows E _ _ _ _ Hs) as (_ & _ & _ & Hk1).
  apply generateContextualAnswer_tables in Ha as (_ & Hm2 & Hk2).
  split; [reflexivity|]. split; [lia|].
  rewrite !saved_accepted by apply Htakes.
  cbn [chat_sessions chat_messages console clock QAResponse.sessionId
         QAResponse.answer].
  rewrite Hm2, Hm1, <- app_assoc. reflexivity.
Qed.

End RoundTrip.



Section Turns.

Context (E : Env).

Lemma processQuestion_keeps_session (request : QARequest.t) (sid : jsstring)
    (w w' : World) (res : QAResponse.t) :
  QARequest.sessionId request = Some sid ->
  sid <> [] ->
  QAService.processQuestion E request w = (inr res, w') ->
  QAResponse.sessionId res = sid.
Proof.
  intros Hsid Hne. rewrite processQuestion_run.
  rewrite (resolveSession_present E request sid w Hsid Hne).
  unfold Run.rejected.
  destruct (searchSimilarContent E w _ _ _) as [cause|chunks]; [discriminate|].
  destruct (QAService.generateContextualAnswer E _ _ chunks w)
    as [[cause|answer] w2]; [discriminate|].
  now intros [= <- _].
Qed.

Lemma ask_all_cons (request : QARequest.t) (rest : list QARequest.t)
    (w w' : World) (responses : list QAResponse.t) :
  View.ask_all E (request :: rest) w = (inr responses, w') ->
  exists (res : QAResponse.t) (others : list QAResponse.t) (w1 : World),
    QAService.processQuestion E request w = (inr res, w1)
    /\ View.ask_all E rest w1 = (inr others, w')
    /\ responses = res :: others.
Proof.
  cbn [View.ask_all]. unfold bind at 1.
  destruct (QAService.processQuestion E request w) as [[t|res] w1];
    [discriminate|].
  unfold bind at 1.
  destruct (View.ask_all E rest w1) as [[t|others] w2] eqn:Hrest;
    [discriminate|].
  unfold ret. intros [= <- <-]. exists res, others, w1.
  repeat split. exact Hrest.
Qed.

(** The history of one session across calls awaited in turn. *)
Lemma ask_all_history (sid : jsstring) (requests : list QARequest.t) :
  sid <> [] ->
  Forall (fun r => QARequest.sessionId r = Some sid) requests ->
  (forall w0 row, message_insert E w0 row = None) ->
  forall (w w' : World) (responses : list QAResponse.t),
    View.stamped w ->
    View.ask_all E requests w = (inr responses, w') ->
    View.stamped w'
    /\ length responses = length requests
    /\ Forall (fun res => QAResponse.sessionId res = sid) responses
    /\ exists rows : list MessageRow.t,
         View.history sid w' = View.history sid w ++ rows
         /\ map MessageRow.role rows = View.turn_roles (length requests)
         /\ map MessageRow.content rows
            = concat (zip_with
                        (fun req res =>
                           [QARequest.question req; QAResponse.answer res])
                        requests responses).
Proof.
  intros Hne Hall Htakes.
  induction Hall as [|request rest Hsid _ IH]; intros w w' responses Hst Hrun.
  - injection Hrun as <- <-.
    split; [exact Hst|]. split; [reflexivity|]. split; [constructor|].
    exists []. now rewrite app_nil_r.
  - apply ask_all_cons in Hrun as (res & others & w1 & Hfirst & Hrest & ->).
    pose proof (processQuestion_keeps_session request sid w w1 res Hsid Hne Hfirst)
      as Hres.
    destruct (processQuestion_accepted E request w w1 res Htakes Hfirst)
      as (chunks & stamp & _ & Hclock & Hw1).
    rewrite Hres in Hw1.
    assert (Hst1 : View.stamped w1).
    { rewrite Hw1. now apply stamped_two_more. }
    assert (Hh1 : View.history sid w1
                  = View.history sid w ++
                      [Spec.user_row sid (QARequest.question request) stamp;
                       Spec.assistant_row sid (QAResponse.answer res) chunks
                         (N.succ stamp)]).
    { rewrite Hw1 at 1. apply history_app. repeat constructor. }
    destruct (IH w1 w' others Hst1 Hrest) as (Hst' & Hlen & Hids & rows & Hh & Hr & Hc).
    split; [exact Hst'|]. split; [cbn; now rewrite Hlen|].
    split; [now constructor|].
    exists ([Spec.user_row sid (QARequest.question request) stamp;
             Spec.assistant_row sid (QAResponse.answer res) chunks (N.succ stamp)]
            ++ rows).
    split; [now rewrite Hh, Hh1, <- app_assoc|].
    split.
    + rewrite map_app, Hr. reflexivity.
    + rewrite map_app, Hc. reflexivity.
Qed.

End Turns.

(** X19: after N calls on one session awaited one after the other, all
    successful, against a store whose stamps are in order and that takes
    every message, the history read back is the history from before
    followed by 2N messages: user, assistant, user, assistant, ..., each
    question followed by the answer given to it. *)
Theorem history_after_calls (E : Env) (sid : jsstring)
    (requests : list QARequest.t) (w w' : World)
    (responses : list QAResponse.t) :
  sid <> [] ->
  Forall (fun r => QARequest.sessionId r = Some sid) requests ->
  (forall w0 row, message_insert E w0 row = None) ->
  View.stamped w ->
  View.ask_all E requests w = (inr responses, w') ->
  messages_select E w' sid = None ->
  exists rows : list MessageRow.t,
    QAService.getChatHistory E sid w' = (inr (View.history sid w ++ rows), w')
    /\ length rows = 2 * length requests
    /\ map MessageRow.role rows = View.turn_roles (length requests)
    /\ map MessageRow.content rows
       = concat (zip_with
                   (fun req res =>
                      [QARequest.question req; QAResponse.answer res])
                   requests responses)
    /\ Forall (fun res => QAResponse.sessionId res = sid) responses.
Proof.
  intros Hne Hall Htakes Hst Hrun Hselect.
  destruct (ask_all_history E sid requests Hne Hall Htakes w w' responses Hst Hrun)
    as (Hst' & Hlen & Hids & rows & Hh & Hroles & Hcontents).
  exists rows. split; [|split; [|repeat split; assumption]].
  - rewrite (getChatHistory_stamped E sid w' Hst' Hselect). now rewrite Hh.
  - rewrite <- (length_map MessageRow.role), Hroles. unfold View.turn_roles.
    clear. induction (length requests) as [|n IH]; [reflexivity|].
    cbn [replicate concat]. rewrite length_app, IH. cbn. lia.
Qed.

Lemma history_after_calls_witness :
  exists rows : list MessageRow.t,
    fst (QAService.getChatHistory Scenario.all_well (lit "session-7")
           (snd (View.ask_all Scenario.all_well
                   [Scenario.follow_up; Scenario.follow_up]
                   Scenario.busy_world)))
    = inr rows
    /\ map MessageRow.role rows = [user; assistant; user; assistant].
Proof.
  destruct (history_after_calls Scenario.all_well (lit "session-7")
              [Scenario.follow_up; Scenario.follow_up] Scenario.busy_world
              (snd (View.ask_all Scenario.all_well
                      [Scenario.follow_up; Scenario.follow_up]
                      Scenario.busy_world))
              (match fst (View.ask_all Scenario.all_well
                            [Scenario.follow_up; Scenario.follow_up]
                            Scenario.busy_world) with
               | inr responses => responses
               | inl _ => []
               end))
    as (rows & Hread & _ & Hroles & _).
  - discriminate.
  - repeat constructor.
  - reflexivity.
  - split; vm_compute; repeat constructor.
  - vm_compute. reflexivity.
  - reflexivity.
  - exists rows. rewrite Hread. split; [reflexivity|exact Hroles].
Defined.

(* ===================================================================== *)
(** ** Opening a session, then listing *)
(* ===================================================================== *)

Lemma sorted_head_is_greatest {A : Type} (key : A -> N) (newest : A)
    (older sorted : list A) :
  Forall (fun s => (key s < key newest)%N) older ->
  StronglySorted (Store.descending key) sorted ->
  Permutation sorted (older ++ [newest]) ->
  exists rest : list A, sorted = newest :: rest /\ Permutation rest older.
Proof.
  intros Holder Hsorted Hperm.
  assert (Hperm' : Permutation sorted (newest :: older)).
  { rewrite Hperm. now rewrite Permutation_app_comm. }
  destruct sorted as [|h rest].
  { apply Permutation_nil in Hperm'. discriminate. }
  apply StronglySorted_inv in Hsorted as [_ Hh].
  assert (Hin : In h (newest :: older)).
  { apply (Permutation_in _ Hperm'). now left. }
  assert (Hnew : In newest (h :: rest)).
  { apply (Permutation_in _ (Permutation_sym Hperm')). now left. }
  assert (h = newest) as ->.
  { destruct Hin as [<-|Hin]; [reflexivity|].
    pose proof (proj1 (List.Forall_forall _ _) Holder h Hin) as Hlt.
    cbv beta in Hlt.
    destruct Hnew as [<-|Hnew]; [reflexivity|].
    pose proof (proj1 (List.Forall_forall _ _) Hh newest Hnew) as Hle.
    unfold Store.descending in Hle. lia. }
  exists rest. split; [reflexivity|].
  now apply Permutation_cons_inv in Hperm'.
Qed.

(** X20: when every session in the store was updated before the store's
    clock, the session [createChatSession] has just opened comes first in
    the list [getUserChatSessions] gives for its user and book, and the
    sessions listed after it are those that were listed before. *)
Theorem new_session_is_listed_first (E : Env)
    (userId bookId question new_id : jsstring) (w w' : World) :
  Forall (fun s => (SessionRow.updated_at s < clock w)%N) (chat_sessions w) ->
  QAService.createChatSession E userId bookId question w = (inr new_id, w') ->
  sessions_select E w' userId bookId = None ->
  exists older : list SessionRow.t,
    QAService.getUserChatSessions E userId bookId w'
    = (inr (SessionRow.mk new_id userId bookId (Spec.title_of question)
              (clock w) (clock w) :: older), w')
    /\ Permutation older
         (List.filter
            (fun s => Store.eq_string (SessionRow.user_id s) userId
                      && Store.eq_string (SessionRow.book_id s) bookId)
            (chat_sessions w)).
Proof.
  intros Hold. rewrite createChatSession_run.
  destruct (session_insert E w _) as [e|id]; [discriminate|].
  intros [= <- <-] Hselect.
  unfold QAService.getUserChatSessions, bind, Store.select_sessions.
  rewrite Hselect. cbn [Store.error Store.data default chat_sessions]. unfold ret.
  rewrite List.filter_app. cbn [List.filter SessionRow.user_id SessionRow.book_id].
  unfold Store.eq_string at 3 4. rewrite !bool_decide_eq_true_2 by reflexivity.
  cbn [andb].
  set (keep := fun s => Store.eq_string (SessionRow.user_id s) userId
                        && Store.eq_string (SessionRow.book_id s) bookId).
  set (newest := SessionRow.mk id userId bookId (Spec.title_of question)
                   (clock w) (clock w)).
  destruct (sorted_head_is_greatest SessionRow.updated_at newest
              (List.filter keep (chat_sessions w))
              (merge_sort (Store.descending SessionRow.updated_at)
                 (List.filter keep (chat_sessions w) ++ [newest])))
    as (rest & -> & Hperm).
  - apply List.Forall_forall. intros s Hs. apply filter_In in Hs as [Hs _].
    exact (proj1 (List.Forall_forall _ _) Hold s Hs).
  - apply StronglySorted_merge_sort; apply _.
  - apply merge_sort_Permutation.
  - now exists rest.
Qed.

Lemma new_session_is_listed_first_witness :
  exists older : list SessionRow.t,
    fst (QAService.getUserChatSessions Scenario.all_well (lit "u1") (lit "doc1")
           (snd (QAService.createChatSession Scenario.all_well (lit "u1")
                   (lit "doc1") (lit "third") Scenario.busy_world)))
    = inr (SessionRow.mk (lit "session-1") (lit "u1") (lit "doc1")
             (lit "third") 10 10 :: older)
    /\ length older = 2.
Proof.
  destruct (new_session_is_listed_first Scenario.all_well (lit "u1")
              (lit "doc1") (lit "third") (lit "session-1") Scenario.busy_world
              (snd (QAService.createChatSession Scenario.all_well (lit "u1")
                      (lit "doc1") (lit "third") Scenario.busy_world)))
    as (older & Hread & Hperm).
  - vm_compute. repeat constructor.
  - vm_compute. reflexivity.
  - reflexivity.
  - exists older. rewrite Hread. split; [reflexivity|].
    now rewrite (Permutation_length Hperm).
Defined.

(* ===================================================================== *)
(** ** The chat component as a caller of [processQuestion] *)
(* ===================================================================== *)

Section Sending.

Context (E : Env) (Date_now : nat -> N).

Lemma or_undefined_usable (sessionId : option jsstring) :
  ChatBot.or_undefined sessionId <> Some [].
Proof. destruct sessionId as [[|c sid]|]; discriminate. Qed.

Lemma or_undefined_set (sid : jsstring) :
  sid <> [] -> ChatBot.or_undefined (Some sid) = Some sid.
Proof. destruct sid; [contradiction|reflexivity]. Qed.

Lemma processQuestion_reuses (request : QARequest.t) (sid : jsstring)
    (w w' : World) (r : Thrown + QAResponse.t) :
  QARequest.sessionId request = Some sid ->
  sid <> [] ->
  QAService.processQuestion E request w = (r, w') ->
  chat_sessions w' = chat_sessions w.
Proof.
  intros Hsid Hne Hrun.
  destruct (processQuestion_sessions E request w w' r Hrun)
    as [Hsame|(sid' & w1 & Hres & Hses & _)]; [exact Hsame|].
  rewrite (resolveSession_present E request sid w Hsid Hne) in Hres.
  now injection Hres as _ <-.
Qed.

(** One run of the handler on an input that is not blank. *)
Lemma handleSendMessage_run (book : ChatBot.Book) (s : ChatBot.State) (w : World) :
  trim (ChatBot.inputText s) <> [] ->
  let request :=
    QARequest.mk (ChatBot.inputText s) (ChatBot.book_id book)
      (ChatBot.or_undefined (ChatBot.sessionId s)) (lit "current-user-id") in
  let asked :=
    ChatBot.mkMessage (of_N (Date_now 0)) (ChatBot.inputText s) false
      (Date_now 1) None in
  ChatBot.handleSendMessage E Date_now book s w
  = match QAService.processQuestion E request w with
    | (inr response, w') =>
        (inr (ChatBot.mkState
                (ChatBot.messages s ++
                   [asked;
                    ChatBot.mkMessage (of_N (Date_now 2 + 1))
                      (QAResponse.answer response) true (Date_now 3)
                      (Some (QAResponse.sources response))])
                [] false
                (if ChatBot.not_set (ChatBot.sessionId s)
                 then Some (QAResponse.sessionId response)
                 else ChatBot.sessionId s)), w')
    | (inl error, w') =>
        (inr (ChatBot.mkState
                (ChatBot.messages s ++
                   [asked;
                    ChatBot.mkMessage (of_N (Date_now 2 + 1))
                      ChatBot.TECHNICAL_PROBLEM true (Date_now 3) None])
                [] false (ChatBot.sessionId s)),
         log_line (lit "Error sending message:") (LogThrown error) w')
    end.
Proof.
  intros Hinput request asked. unfold ChatBot.handleSendMessage.
  destruct (trim (ChatBot.inputText s)) as [|c rest]; [contradiction|].
  cbn [JsString.truthy negb]. fold request asked.
  unfold bind at 1. unfold try_catch. unfold bind at 1.
  destruct (QAService.processQuestion E request w) as [[error|response] w'].
  - unfold bind, console_error, ret.
    cbn [ChatBot.messages ChatBot.inputText ChatBot.isTyping ChatBot.sessionId].
    now rewrite <- app_assoc.
  - unfold ret.
    cbn [ChatBot.messages ChatBot.inputText ChatBot.isTyping ChatBot.sessionId].
    now rewrite <- app_assoc.
Qed.

End Sending.

(** X21: a blank input sends nothing: the state and the world are as
    before.  Any other input ends, whatever the service does, with the
    input cleared, the typing flag down and two more messages: the text
    typed and a reply, which is the answer with its sources or, when the
    service rejects, one fixed text that is neither the cause nor the
    service's own error message. *)
Theorem handleSendMessage_always_replies (E : Env) (Date_now : nat -> N)
    (book : ChatBot.Book) (s : ChatBot.State) (w : World) :
  (Forall (fun c => is_white c = true) (ChatBot.inputText s) ->
   ChatBot.handleSendMessage E Date_now book s w = (inr s, w))
  /\ (trim (ChatBot.inputText s) <> [] ->
      exists (reply : ChatBot.Message) (next : ChatBot.State) (w' : World),
        ChatBot.handleSendMessage E Date_now book s w = (inr next, w')
        /\ ChatBot.messages next
           = ChatBot.messages s ++
               [ChatBot.mkMessage (of_N (Date_now 0)) (ChatBot.inputText s)
                  false (Date_now 1) None; reply]
        /\ ChatBot.inputText next = []
        /\ ChatBot.isTyping next = false
        /\ ChatBot.isBot reply = true
        /\ match fst (QAService.processQuestion E
                        (QARequest.mk (ChatBot.inputText s)
                           (ChatBot.book_id book)
                           (ChatBot.or_undefined (ChatBot.sessionId s))
                           (lit "current-user-id")) w) with
           | inr response =>
               ChatBot.text reply = QAResponse.answer response
               /\ ChatBot.sources reply = Some (QAResponse.sources response)
           | inl error =>
               ChatBot.text reply = ChatBot.TECHNICAL_PROBLEM
               /\ ChatBot.sources reply = None
               /\ ChatBot.sessionId next = ChatBot.sessionId s
               /\ last (console w')
                  = Some (lit "Error sending message:", LogThrown error)
           end)
  /\ ChatBot.TECHNICAL_PROBLEM <> QAService.PROCESSING_ERROR.
Proof.
  split; [|split].
  - intros Hblank. unfold ChatBot.handleSendMessage.
    now rewrite (trim_white _ Hblank).
  - intros Hinput.
    rewrite (handleSendMessage_run E Date_now book s w Hinput).
    destruct (QAService.processQuestion E _ w) as [[error|response] w'];
      eexists; eexists; eexists; (split; [reflexivity|]);
      cbn [ChatBot.messages ChatBot.inputText ChatBot.isTyping
             ChatBot.isBot ChatBot.text ChatBot.sources ChatBot.sessionId fst];
      repeat split.
    cbn [console log_line]. apply last_snoc.
  - vm_compute. discriminate.
Qed.

Lemma handleSendMessage_always_replies_witness :
  ChatBot.handleSendMessage Scenario.all_well (fun n => N.of_nat n)
    (ChatBot.mkBook (lit "doc1") (lit "Biology") (lit "A. Author"))
    (ChatBot.mkState [] (lit "   ") false None) Scenario.empty_world
  = (inr (ChatBot.mkState [] (lit "   ") false None), Scenario.empty_world)
  /\ exists next : ChatBot.State,
       fst (ChatBot.handleSendMessage Scenario.completion_refuses
              (fun n => N.of_nat n)
              (ChatBot.mkBook (lit "doc1") (lit "Biology") (lit "A. Author"))
              (ChatBot.mkState [] (lit "Why?") false None)
              Scenario.empty_world)
       = inr next
       /\ map ChatBot.text (ChatBot.messages next)
          = [lit "Why?"; ChatBot.TECHNICAL_PROBLEM].
Proof.
  split.
  - apply handleSendMessage_always_replies. vm_compute. repeat constructor.
  - destruct (handleSendMessage_always_replies Scenario.completion_refuses
                (fun n => N.of_nat n)
                (ChatBot.mkBook (lit "doc1") (lit "Biology") (lit "A. Author"))
                (ChatBot.mkState [] (lit "Why?") false None)
                Scenario.empty_world) as (_ & Hreply & _).
    destruct Hreply as (reply & next & w' & Hrun & Hmessages & _ & _ & _ & Hcase);
      [vm_compute; discriminate|].
    change (fst _) with (@inl Thrown QAResponse.t (Error QAService.PROCESSING_ERROR))
      in Hcase.
    destruct Hcase as (Htext & _).
    exists next. rewrite Hrun. split; [reflexivity|].
    rewrite Hmessages.
    cbn [map app ChatBot.text ChatBot.messages ChatBot.inputText].
    now rewrite Htext.
Defined.

(** X22: the component never hands [processQuestion] an empty
    [sessionId].  Once it holds a session, a send keeps it and opens no
    session, however the call ends; while it holds none, a successful
    send stores the identifier the service returns. *)
Theorem handleSendMessage_keeps_the_session (E : Env) (Date_now : nat -> N)
    (book : ChatBot.Book) (s next : ChatBot.State) (w w' : World) :
  trim (ChatBot.inputText s) <> [] ->
  ChatBot.handleSendMessage E Date_now book s w = (inr next, w') ->
  let request :=
    QARequest.mk (ChatBot.inputText s) (ChatBot.book_id book)
      (ChatBot.or_undefined (ChatBot.sessionId s)) (lit "current-user-id") in
  QARequest.sessionId request <> Some []
  /\ (forall sid : jsstring,
        ChatBot.sessionId s = Some sid -> sid <> [] ->
        ChatBot.sessionId next = Some sid
        /\ chat_sessions w' = chat_sessions w)
  /\ (ChatBot.sessionId s = None \/ ChatBot.sessionId s = Some [] ->
      forall response : QAResponse.t,
        fst (QAService.processQuestion E request w) = inr response ->
        ChatBot.sessionId next = Some (QAResponse.sessionId response)).
Proof.
  intros Hinput Hrun request.
  rewrite (handleSendMessage_run E Date_now book s w Hinput) in Hrun.
  fold request in Hrun.
  split; [apply or_undefined_usable|]. split.
  - intros sid Hsid Hne.
    destruct (QAService.processQuestion E request w) as [[error|response] w1]
      eqn:Hcall;
      injection Hrun as <- <-; cbn [ChatBot.sessionId chat_sessions log_line].
    + split; [exact Hsid|].
      eapply (processQuestion_reuses E request sid); [|exact Hne|exact Hcall].
      subst request. cbn [QARequest.sessionId]. rewrite Hsid.
      now apply or_undefined_set.
    + rewrite Hsid. destruct sid as [|c sid]; [contradiction|].
      cbn [ChatBot.not_set JsString.truthy negb]. split; [reflexivity|].
      eapply (processQuestion_reuses E request (c :: sid));
        [|exact Hne|exact Hcall].
      subst request. cbn [QARequest.sessionId]. now rewrite Hsid.
  - intros Hnone response Hcall.
    destruct (QAService.processQuestion E request w) as [[error|res] w1];
      [discriminate|].
    cbn [fst] in Hcall. injection Hcall as ->.
    injection Hrun as <- _. cbn [ChatBot.sessionId].
    now destruct Hnone as [-> | ->].
Qed.

Lemma handleSendMessage_keeps_the_session_witness :
  exists (next : ChatBot.State) (w' : World),
    ChatBot.handleSendMessage Scenario.all_well (fun n => N.of_nat n)
      (ChatBot.mkBook (lit "doc1") (lit "Biology") (lit "A. Author"))
      (ChatBot.mkState [] (lit "Why?") false (Some (lit "session-7")))
      Scenario.busy_world
    = (inr next, w')
    /\ ChatBot.sessionId next = Some (lit "session-7")
    /\ chat_sessions w' = chat_sessions Scenario.busy_world.
Proof.
  destruct (ChatBot.handleSendMessage Scenario.all_well (fun n => N.of_nat n)
              (ChatBot.mkBook (lit "doc1") (lit "Biology") (lit "A. Author"))
              (ChatBot.mkState [] (lit "Why?") false (Some (lit "session-7")))
              Scenario.busy_world) as [[t|next] w'] eqn:Hrun;
    [revert Hrun; vm_compute; discriminate|].
  destruct (handleSendMessage_keeps_the_session Scenario.all_well
              (fun n => N.of_nat n)
              (ChatBot.mkBook (lit "doc1") (lit "Biology") (lit "A. Author"))
              (ChatBot.mkState [] (lit "Why?") false (Some (lit "session-7")))
              next Scenario.busy_world w') as (_ & Hkeep & _);
    [vm_compute; discriminate|exact Hrun|].
  destruct (Hkeep (lit "session-7") eq_refl) as [Hsid Hsessions];
    [vm_compute; discriminate|].
  exists next, w'. now repeat split.
Defined.
